(** * Webhook signature verification and idempotency keys of the Molam SDKs

    A shallow embedding of the webhook-signature code that the Python SDKs of
    the repository carry in three places, and of the idempotency-key helper:

    - [Webhooks]       brique-102/packages/python-complete/molam_sdk/webhooks.py
    - [Webhook]        brique-105/molam_sdk/utils/webhook.py
    - [WebhookHandler] brique-102/packages/python-complete/examples/webhook_handler.py
    - [Idempotency]    brique-105/molam_sdk/utils/idempotency.py

    and of the code around it: [construct_event] of the first file
    ([ConstructEvent]), the two verifiers of brique-102/packages/python/molam
    ([MolamClient], [WebhooksResource]), the configuration and the client of
    brique-105 ([Config], [Client]: [_headers], [_request],
    [verify_webhook_signature]) and the store of processed events of the
    example handler ([ProcessedEvents]).

    Python values are modelled as follows.  A [str] is the list of its code
    points ([list N]); [bytes] is [list byte]; an [int] is a [Z]; a [dict]
    with string keys is a [gmap]; [None] is [None].  A function that can
    raise returns a [result]: [Return v] or [Raise e].  The clock
    ([int(time.time() * 1000)]) and the random bytes are inputs of the
    functions that read them.  Two library primitives are parameters of the
    development: the HMAC-SHA256 digest of the [hmac]/[hashlib] modules and
    the decimal-digit table of the interpreter's Unicode database.

    The statements of a function body are written in their order with
    [x <- c ;; k], so that the first exception raised is the one reported.
    The secret resolver [get_secret_by_kid] is a function from key ids to
    optional secrets (it raises nothing and keeps no state), and integers
    are unbounded in both directions of [int] and [str]: the interpreter's
    optional cap on the number of digits is taken as switched off. *)

From Stdlib Require Import ZArith NArith List Lia Bool Ascii String.
From Stdlib.Strings Require Import Byte.
From Stdlib Require Import DecimalZ DecimalN DecimalPos.
From stdpp Require Import gmap.
Import ListNotations.

Abbreviation pystr := (list N) (only parsing).
Abbreviation bytes := (list byte) (only parsing).

(** Outcome of a call: a returned value or a raised exception. *)
Inductive result (E A : Type) : Type :=
| Return (a : A)
| Raise (e : E).
Arguments Return {E A} a.
Arguments Raise {E A} e.

(** Statements in sequence: the first exception raised ends the call. *)
Definition bind {E A B : Type} (c : result E A) (k : A -> result E B)
  : result E B :=
  match c with
  | Return a => k a
  | Raise e => Raise e
  end.

Notation "x <- c ;; k" := (bind c (fun x => k))
  (at level 100, c at next level, right associativity).
Notation "c ;; k" := (bind c (fun _ => k))
  (at level 100, right associativity).

(** [if b: raise e] *)
Definition raise_if {E : Type} (b : bool) (e : E) : result E unit :=
  if b then Raise e else Return tt.

(** The value of a primitive operation, or [e] raised when it has none. *)
Definition try_or {E A : Type} (o : option A) (e : E) : result E A :=
  match o with
  | Some a => Return a
  | None => Raise e
  end.

(** [try: c except ...: h] *)
Definition catch {E A : Type} (c : result E A) (h : E -> result E A)
  : result E A :=
  match c with
  | Return a => Return a
  | Raise e => h e
  end.

(** * Python primitives used by the SDK code *)
Module Py.

(** A [str] literal: the code points of an ASCII string. *)
Definition str (s : String.string) : pystr :=
  map N_of_ascii (list_ascii_of_string s).

(** Truth value of a [str] ([if s:]) and of an [Optional[str]]. *)
Definition truthy (s : pystr) : bool :=
  match s with [] => false | _ :: _ => true end.

Definition truthy_opt (o : option pystr) : bool :=
  match o with Some s => truthy s | None => false end.

(** [str.isspace] on one code point (the interpreter's whitespace table). *)
Definition isspace (c : N) : bool :=
  ((0x09 <=? c) && (c <=? 0x0D) || (0x1C <=? c) && (c <=? 0x20)
   || (c =? 0x85) || (c =? 0xA0) || (c =? 0x1680)
   || (0x2000 <=? c) && (c <=? 0x200A)
   || (c =? 0x2028) || (c =? 0x2029) || (c =? 0x202F) || (c =? 0x205F)
   || (c =? 0x3000))%N.

(** [s.split(sep)] for a one-character separator. *)
Fixpoint split (sep : N) (s : pystr) : list pystr :=
  match s with
  | [] => [[]]
  | c :: s' =>
      if (c =? sep)%N then [] :: split sep s'
      else match split sep s' with
           | hd :: tl => (c :: hd) :: tl
           | [] => [[c]]
           end
  end.

(** [s.split(sep, 1)]: split at the first separator only. *)
Fixpoint split1 (sep : N) (s : pystr) : list pystr :=
  match s with
  | [] => [[]]
  | c :: s' =>
      if (c =? sep)%N then [[]; s']
      else match split1 sep s' with
           | hd :: tl => (c :: hd) :: tl
           | [] => [[c]]
           end
  end.

(** [key, value = l]: unpacking into two names; [None] is the [ValueError]
    raised when [l] has another length. *)
Definition unpack2 (l : list pystr) : option (pystr * pystr) :=
  match l with
  | [k; v] => Some (k, v)
  | _ => None
  end.

(** [s.strip()]. *)
Fixpoint lstrip (s : pystr) : pystr :=
  match s with
  | c :: s' => if isspace c then lstrip s' else s
  | [] => []
  end.

Definition rstrip (s : pystr) : pystr := rev (lstrip (rev s)).

Definition strip (s : pystr) : pystr := rstrip (lstrip s).

(** All the characters of [s] are ASCII ([str.isascii]). *)
Definition is_ascii (s : pystr) : bool := forallb (fun c => (c <? 128)%N) s.

(** ** [int(s)] for a [str] *)

Definition c_isspace (c : N) : bool :=
  ((0x09 <=? c) && (c <=? 0x0D) || (c =? 0x20))%N.

Definition is_digit (c : N) : bool := ((48 <=? c) && (c <=? 57))%N.

Definition digit_val (c : N) : Z := Z.of_N c - 48.

(** The digits after the first one: a digit, or one underscore followed by a
    digit; scanning stops at the first other character. *)
Fixpoint scan_digits (acc : Z) (s : pystr) : option (Z * pystr) :=
  match s with
  | [] => Some (acc, [])
  | c :: s' =>
      if is_digit c then scan_digits (acc * 10 + digit_val c) s'
      else if (c =? 95)%N then
        match s' with
        | d :: s'' =>
            if is_digit d then scan_digits (acc * 10 + digit_val d) s''
            else None
        | [] => None
        end
      else Some (acc, s)
  end.

Fixpoint skip_spaces (s : pystr) : pystr :=
  match s with
  | c :: s' => if c_isspace c then skip_spaces s' else s
  | [] => []
  end.

(** The base-10 reading of an ASCII buffer: blanks, an optional sign, digits
    (single underscores between digits allowed), blanks, end of input. *)
Definition parse_long (s : pystr) : option Z :=
  let s1 := skip_spaces s in
  let '(neg, s2) :=
    match s1 with
    | c :: r => if (c =? 43)%N then (false, r)
                else if (c =? 45)%N then (true, r) else (false, s1)
    | [] => (false, s1)
    end in
  match s2 with
  | d :: r =>
      if is_digit d then
        match scan_digits (digit_val d) r with
        | Some (v, rest) =>
            match skip_spaces rest with
            | [] => Some (if neg then (- v)%Z else v)
            | _ :: _ => None
            end
        | None => None
        end
      else None
  | [] => None
  end.

Section Int.
(** The decimal value of a non-ASCII code point in the interpreter's Unicode
    database ([None]: not a decimal digit). *)
Variable todecimal : N -> option N.

(** Before parsing, [int] leaves an ASCII string as it is; in any other string
    it maps Unicode blanks to a space and Unicode decimal digits to ASCII
    digits, and any other character from 127 on is an error. *)
Definition transform_char (c : N) : option N :=
  if (c <? 127)%N then Some c
  else if isspace c then Some 32%N
  else match todecimal c with
       | Some d => Some (48 + d)%N
       | None => None
       end.

Fixpoint transform_chars (s : pystr) : option pystr :=
  match s with
  | [] => Some []
  | c :: s' =>
      match transform_char c, transform_chars s' with
      | Some c', Some r => Some (c' :: r)
      | _, _ => None
      end
  end.

Definition transform (s : pystr) : option pystr :=
  if is_ascii s then Some s else transform_chars s.

(** [int(s)]; [None] is [ValueError]. *)
Definition int (s : pystr) : option Z :=
  match transform s with
  | Some s' => parse_long s'
  | None => None
  end.
End Int.

(** ** [str(n)] for an [int] (also what an f-string writes) *)

Fixpoint uint_chars (u : Decimal.uint) : pystr :=
  match u with
  | Decimal.Nil => []
  | Decimal.D0 u => 48%N :: uint_chars u
  | Decimal.D1 u => 49%N :: uint_chars u
  | Decimal.D2 u => 50%N :: uint_chars u
  | Decimal.D3 u => 51%N :: uint_chars u
  | Decimal.D4 u => 52%N :: uint_chars u
  | Decimal.D5 u => 53%N :: uint_chars u
  | Decimal.D6 u => 54%N :: uint_chars u
  | Decimal.D7 u => 55%N :: uint_chars u
  | Decimal.D8 u => 56%N :: uint_chars u
  | Decimal.D9 u => 57%N :: uint_chars u
  end.

Definition format_int (z : Z) : pystr :=
  match Z.to_int z with
  | Decimal.Pos u => uint_chars u
  | Decimal.Neg u => 45%N :: uint_chars u
  end.

(** ** UTF-8 *)

Definition byte_of_N (n : N) : byte :=
  match Byte.of_N n with Some b => b | None => x00 end.

(** The UTF-8 bytes of one code point; surrogates (and values that are not
    code points) cannot be encoded. *)
Definition encode_cp (c : N) : option bytes :=
  (if c <? 0x80 then Some [byte_of_N c]
   else if c <? 0x800 then
     Some [byte_of_N (0xC0 + c / 64); byte_of_N (0x80 + c mod 64)]
   else if c <? 0x10000 then
     if (0xD800 <=? c) && (c <=? 0xDFFF) then None
     else Some [byte_of_N (0xE0 + c / 4096);
                byte_of_N (0x80 + (c / 64) mod 64);
                byte_of_N (0x80 + c mod 64)]
   else if c <? 0x110000 then
     Some [byte_of_N (0xF0 + c / 262144);
           byte_of_N (0x80 + (c / 4096) mod 64);
           byte_of_N (0x80 + (c / 64) mod 64);
           byte_of_N (0x80 + c mod 64)]
   else None)%N.

(** [s.encode("utf-8")]; [None] is [UnicodeEncodeError]. *)
Fixpoint utf8_encode (s : pystr) : option bytes :=
  match s with
  | [] => Some []
  | c :: s' =>
      match encode_cp c, utf8_encode s' with
      | Some b, Some bs => Some (b ++ bs)
      | _, _ => None
      end
  end.

Definition is_cont (n : N) : bool := ((0x80 <=? n) && (n <? 0xC0))%N.

Definition cons_opt (c : N) (o : option pystr) : option pystr :=
  match o with Some s => Some (c :: s) | None => None end.

(** [b.decode("utf-8")] (strict); [None] is [UnicodeDecodeError]: overlong
    forms, surrogates, values above U+10FFFF, stray continuation bytes and
    truncated sequences are refused. *)
Fixpoint utf8_decode (b : bytes) : option pystr :=
  match b with
  | [] => Some []
  | b0 :: r0 =>
      let n0 := Byte.to_N b0 in
      if (n0 <? 0x80)%N then cons_opt n0 (utf8_decode r0)
      else if (n0 <? 0xC2)%N then None
      else if (n0 <? 0xE0)%N then
        match r0 with
        | b1 :: r1 =>
            let n1 := Byte.to_N b1 in
            if is_cont n1
            then cons_opt ((n0 - 0xC0) * 64 + (n1 - 0x80))%N (utf8_decode r1)
            else None
        | _ => None
        end
      else if (n0 <? 0xF0)%N then
        match r0 with
        | b1 :: b2 :: r2 =>
            let n1 := Byte.to_N b1 in
            let n2 := Byte.to_N b2 in
            let c := ((n0 - 0xE0) * 4096 + (n1 - 0x80) * 64 + (n2 - 0x80))%N in
            if is_cont n1 && is_cont n2 && (0x800 <=? c)%N
               && negb ((0xD800 <=? c) && (c <=? 0xDFFF))%N
            then cons_opt c (utf8_decode r2)
            else None
        | _ => None
        end
      else if (n0 <? 0xF5)%N then
        match r0 with
        | b1 :: b2 :: b3 :: r3 =>
            let n1 := Byte.to_N b1 in
            let n2 := Byte.to_N b2 in
            let n3 := Byte.to_N b3 in
            let c := ((n0 - 0xF0) * 262144 + (n1 - 0x80) * 4096
                      + (n2 - 0x80) * 64 + (n3 - 0x80))%N in
            if is_cont n1 && is_cont n2 && is_cont n3
               && (0x10000 <=? c)%N && (c <? 0x110000)%N
            then cons_opt c (utf8_decode r3)
            else None
        | _ => None
        end
      else None
  end.

(** ** Hex digests and [hmac.compare_digest] *)

Definition hex_char (n : N) : N := (if n <? 10 then 48 + n else 87 + n)%N.

(** Lowercase hexadecimal of a byte string ([hexdigest], [token_hex]). *)
Fixpoint hexlify (b : bytes) : pystr :=
  match b with
  | [] => []
  | x :: r =>
      let n := Byte.to_N x in
      hex_char (n / 16) :: hex_char (n mod 16) :: hexlify r
  end.

(** [hmac.compare_digest(a, b)] on two [str]: equality, and [TypeError]
    ([None]) when either holds a non-ASCII character. *)
Definition compare_digest (a b : pystr) : option bool :=
  if is_ascii a && is_ascii b then Some (bool_decide (a = b)) else None.

End Py.

(** * The digest primitive

    HMAC-SHA256 as the [hmac] and [hashlib] modules compute it (FIPS 180-4,
    RFC 2104), on 32-bit words held in [Z].  The SDK code below is
    parametrised by the digest function; this instance runs it on concrete
    inputs. *)
Module Hashlib.
Local Open Scope Z_scope.

Definition w32 (x : Z) : Z := x mod 4294967296.

Definition rotr (n x : Z) : Z :=
  Z.lor (Z.shiftr x n) (w32 (Z.shiftl x (32 - n))).

Definition ch (x y z : Z) : Z :=
  Z.lxor (Z.land x y) (Z.land (Z.lxor x 4294967295) z).

Definition maj (x y z : Z) : Z :=
  Z.lxor (Z.lxor (Z.land x y) (Z.land x z)) (Z.land y z).

Definition bsig0 (x : Z) : Z := Z.lxor (Z.lxor (rotr 2 x) (rotr 13 x)) (rotr 22 x).
Definition bsig1 (x : Z) : Z := Z.lxor (Z.lxor (rotr 6 x) (rotr 11 x)) (rotr 25 x).
Definition ssig0 (x : Z) : Z := Z.lxor (Z.lxor (rotr 7 x) (rotr 18 x)) (Z.shiftr x 3).
Definition ssig1 (x : Z) : Z := Z.lxor (Z.lxor (rotr 17 x) (rotr 19 x)) (Z.shiftr x 10).

Definition round_constants : list Z :=
    [1116352408; 1899447441; 3049323471; 3921009573; 961987163; 1508970993;
     2453635748; 2870763221; 3624381080; 310598401; 607225278; 1426881987;
     1925078388; 2162078206; 2614888103; 3248222580; 3835390401; 4022224774;
     264347078; 604807628; 770255983; 1249150122; 1555081692; 1996064986;
     2554220882; 2821834349; 2952996808; 3210313671; 3336571891; 3584528711;
     113926993; 338241895; 666307205; 773529912; 1294757372; 1396182291;
     1695183700; 1986661051; 2177026350; 2456956037; 2730485921; 2820302411;
     3259730800; 3345764771; 3516065817; 3600352804; 4094571909; 275423344;
     430227734; 506948616; 659060556; 883997877; 958139571; 1322822218;
     1537002063; 1747873779; 1955562222; 2024104815; 2227730452; 2361852424;
     2428436474; 2756734187; 3204031479; 3329325298].

Definition initial_hash : list Z :=
    [1779033703; 3144134277; 1013904242; 2773480762; 1359893119; 2600822924;
     528734635; 1541459225].

(** The [n] low-order bytes of [x], most significant first. *)
Fixpoint be_bytes (n : nat) (x : Z) : list Z :=
  match n with
  | O => []
  | S n' => (x / 256 ^ Z.of_nat n') mod 256 :: be_bytes n' x
  end.

Definition pad (msg : list Z) : list Z :=
  let l := Z.of_nat (length msg) in
  msg ++ [128] ++ repeat 0 (Z.to_nat ((55 - l) mod 64)) ++ be_bytes 8 (8 * l).

Fixpoint words (bs : list Z) : list Z :=
  match bs with
  | a :: b :: c :: d :: r => (((a * 256 + b) * 256 + c) * 256 + d) :: words r
  | _ => []
  end.

(** The message schedule, newest word first. *)
Fixpoint expand (n : nat) (w : list Z) : list Z :=
  match n with
  | O => w
  | S n' =>
      expand n' (w32 (ssig1 (nth 1 w 0) + nth 6 w 0
                      + ssig0 (nth 14 w 0) + nth 15 w 0) :: w)
  end.

Definition round (s : list Z) (kw : Z * Z) : list Z :=
  match s with
  | [a; b; c; d; e; f; g; h] =>
      let t1 := h + bsig1 e + ch e f g + fst kw + snd kw in
      let t2 := bsig0 a + maj a b c in
      [w32 (t1 + t2); a; b; c; w32 (d + t1); e; f; g]
  | _ => s
  end.

Definition compress (h : list Z) (block : list Z) : list Z :=
  let w := rev (expand 48 (rev block)) in
  let s := fold_left round (combine round_constants w) h in
  map (fun p => w32 (fst p + snd p)) (combine h s).

Fixpoint process (fuel : nat) (ws : list Z) (h : list Z) : list Z :=
  match fuel, ws with
  | S fuel', _ :: _ => process fuel' (skipn 16 ws) (compress h (firstn 16 ws))
  | _, _ => h
  end.

Definition sha256 (m : bytes) : bytes :=
  let ws := words (pad (map (fun b => Z.of_N (Byte.to_N b)) m)) in
  map (fun z => Py.byte_of_N (Z.to_N z))
      (flat_map (be_bytes 4) (process (length ws) ws initial_hash)).

Definition xor_pad (c : N) (k : bytes) : bytes :=
  map (fun b => Py.byte_of_N (N.lxor (Byte.to_N b) c)) k.

Definition hmac_sha256 (key msg : bytes) : bytes :=
  let k0 := if (64 <? length key)%nat then sha256 key else key in
  let k := k0 ++ repeat x00 (64 - length k0) in
  sha256 (xor_pad 0x5c k ++ sha256 (xor_pad 0x36 k ++ msg)).

(** The bytes of an ASCII literal. *)
Definition b (s : String.string) : bytes :=
  map (fun a => Py.byte_of_N (N_of_ascii a)) (list_ascii_of_string s).

End Hashlib.

(** * Exceptions and the failure kinds of the specification *)

(** The failure kinds of the specification's error taxonomy. *)
Inductive reason : Type :=
| MalformedHeader
| InvalidTimestamp
| TimestampOutOfTolerance
| UnknownKeyId
| SignatureMismatch.

(** What a call can raise: the SDK's own exception class with its message
    ([M] lists the messages of the module), or a built-in exception. *)
Inductive exn (M : Type) : Type :=
| SdkError (m : M)
| KeyError
| ValueError
| UnicodeDecodeError
| UnicodeEncodeError
| TypeError.
Arguments SdkError {M} m.
Arguments KeyError {M}.
Arguments ValueError {M}.
Arguments UnicodeDecodeError {M}.
Arguments UnicodeEncodeError {M}.
Arguments TypeError {M}.

(** [isinstance(e, (KeyError, ValueError))]: the Unicode errors are
    subclasses of [ValueError]. *)
Definition key_or_value_error {M : Type} (e : exn M) : bool :=
  match e with
  | KeyError | ValueError | UnicodeDecodeError | UnicodeEncodeError => true
  | SdkError _ | TypeError => false
  end.

(** [parts[k]] *)
Definition getitem {M : Type} (parts : gmap pystr pystr) (k : pystr)
  : result (exn M) pystr :=
  try_or (parts !! k) KeyError.

(** * brique-102, molam_sdk/webhooks.py *)
Module Webhooks.
Import Py.

(** The messages of [WebhookVerificationError], one per [raise]. *)
Inductive message : Type :=
| Missing_header
| Invalid_header_format
| Missing_timestamp_or_signature
| Invalid_timestamp_format
| Timestamp_outside_tolerance (age tolerance_ms : Z)
| Unknown_key_id (kid : pystr)
| Signature_mismatch.

Definition reason_of (m : message) : reason :=
  match m with
  | Missing_header | Invalid_header_format | Missing_timestamp_or_signature =>
      MalformedHeader
  | Invalid_timestamp_format => InvalidTimestamp
  | Timestamp_outside_tolerance _ _ => TimestampOutOfTolerance
  | Unknown_key_id _ => UnknownKeyId
  | Signature_mismatch => SignatureMismatch
  end.

(** [for part in header.split(","): key, value = part.split("=", 1);
    parts[key] = value] *)
Fixpoint parse_parts (segs : list pystr) (parts : gmap pystr pystr)
  : result (exn message) (gmap pystr pystr) :=
  match segs with
  | [] => Return parts
  | part :: rest =>
      kv <- try_or (unpack2 (split1 61 part)) ValueError ;;
      parse_parts rest (<[kv.1 := kv.2]> parts)
  end.

Section Verify.
Variable hmac_sha256 : bytes -> bytes -> bytes.
Variable todecimal : N -> option N.

Definition verify_molam_signature
    (header : pystr) (payload : bytes)
    (get_secret_by_kid : pystr -> option pystr)
    (tolerance_seconds : Z) (now_ms : Z) : result (exn message) bool :=
  raise_if (negb (truthy header)) (SdkError Missing_header) ;;
  parts <- catch (parse_parts (split 44 header) empty)
             (fun _ => Raise (SdkError Invalid_header_format)) ;;
  let timestamp_str := parts !! str "t" in
  let signature := parts !! str "v1" in
  let kid := default (str "v1") (parts !! str "kid") in
  raise_if (negb (truthy_opt timestamp_str) || negb (truthy_opt signature))
    (SdkError Missing_timestamp_or_signature) ;;
  let timestamp_str := default [] timestamp_str in
  let signature := default [] signature in
  timestamp <- try_or (int todecimal timestamp_str)
                 (SdkError Invalid_timestamp_format) ;;
  let current_time := now_ms in
  let age := Z.abs (current_time - timestamp) in
  raise_if (age >? tolerance_seconds * 1000)%Z
    (SdkError (Timestamp_outside_tolerance age (tolerance_seconds * 1000))) ;;
  let secret := get_secret_by_kid kid in
  raise_if (negb (truthy_opt secret)) (SdkError (Unknown_key_id kid)) ;;
  let secret := default [] secret in
  prefix <- try_or (utf8_encode (timestamp_str ++ str ".")) UnicodeEncodeError ;;
  let signed_payload := prefix ++ payload in
  key <- try_or (utf8_encode secret) UnicodeEncodeError ;;
  let expected_signature := hexlify (hmac_sha256 key signed_payload) in
  equal <- try_or (compare_digest expected_signature signature) TypeError ;;
  raise_if (negb equal) (SdkError Signature_mismatch) ;;
  Return true.
End Verify.

End Webhooks.

(** * brique-105, molam_sdk/utils/webhook.py *)
Module Webhook.
Import Py.

(** The messages of [SignatureError], one per [raise]. *)
Inductive message : Type :=
| Missing_signature_header
| Invalid_signature_header_format (pair_ : pystr)
| Missing_required_fields (missing : gset pystr)
| Invalid_timestamp_format
| Timestamp_outside_tolerance (age max : Z)
| Secret_not_found (kid : pystr)
| Signature_mismatch.

Definition reason_of (m : message) : reason :=
  match m with
  | Missing_signature_header | Invalid_signature_header_format _
  | Missing_required_fields _ => MalformedHeader
  | Invalid_timestamp_format => InvalidTimestamp
  | Timestamp_outside_tolerance _ _ => TimestampOutOfTolerance
  | Secret_not_found _ => UnknownKeyId
  | Signature_mismatch => SignatureMismatch
  end.

(** The loop of [parse_signature_header]: keys and values are stripped. *)
Fixpoint parse_pairs (pairs : list pystr) (parts : gmap pystr pystr)
  : result (exn message) (gmap pystr pystr) :=
  match pairs with
  | [] => Return parts
  | pair_ :: rest =>
      kv <- try_or (unpack2 (split1 61 pair_))
              (SdkError (Invalid_signature_header_format pair_)) ;;
      parse_pairs rest (<[strip kv.1 := strip kv.2]> parts)
  end.

Definition parse_signature_header (header : pystr)
  : result (exn message) (gmap pystr pystr) :=
  raise_if (negb (truthy header)) (SdkError Missing_signature_header) ;;
  parse_pairs (split 44 header) empty.

Definition required_fields : gset pystr := {[ str "t"; str "v1"; str "kid" ]}.

Section Verify.
Variable hmac_sha256 : bytes -> bytes -> bytes.
Variable todecimal : N -> option N.

Definition verify_signature
    (header : pystr) (raw_body : bytes)
    (get_secret_by_kid : pystr -> option pystr)
    (tolerance_ms : Z) (now_ms : Z) : result (exn message) bool :=
  raise_if (negb (truthy header)) (SdkError Missing_signature_header) ;;
  parts <- parse_signature_header header ;;
  raise_if (negb (bool_decide (required_fields ⊆ dom parts)))
    (SdkError (Missing_required_fields (required_fields ∖ dom parts))) ;;
  t <- getitem parts (str "t") ;;
  timestamp_ms <- try_or (int todecimal t) (SdkError Invalid_timestamp_format) ;;
  signature <- getitem parts (str "v1") ;;
  kid <- getitem parts (str "kid") ;;
  raise_if (Z.abs (now_ms - timestamp_ms) >? tolerance_ms)%Z
    (SdkError (Timestamp_outside_tolerance
                 (Z.abs (now_ms - timestamp_ms)) tolerance_ms)) ;;
  let secret := get_secret_by_kid kid in
  raise_if (negb (truthy_opt secret)) (SdkError (Secret_not_found kid)) ;;
  let secret := default [] secret in
  t <- getitem parts (str "t") ;;
  body <- try_or (utf8_decode raw_body) UnicodeDecodeError ;;
  let signed_payload := t ++ str "." ++ body in
  key <- try_or (utf8_encode secret) UnicodeEncodeError ;;
  message_bytes <- try_or (utf8_encode signed_payload) UnicodeEncodeError ;;
  let expected_signature := hexlify (hmac_sha256 key message_bytes) in
  equal <- try_or (compare_digest expected_signature signature) TypeError ;;
  raise_if (negb equal) (SdkError Signature_mismatch) ;;
  Return true.

Definition generate_signature
    (payload : bytes) (secret : pystr) (timestamp_ms : option Z)
    (kid : pystr) (now_ms : Z) : result (exn message) pystr :=
  let timestamp_ms := default now_ms timestamp_ms in
  body <- try_or (utf8_decode payload) UnicodeDecodeError ;;
  let signed_payload := format_int timestamp_ms ++ str "." ++ body in
  key <- try_or (utf8_encode secret) UnicodeEncodeError ;;
  message_bytes <- try_or (utf8_encode signed_payload) UnicodeEncodeError ;;
  let signature := hexlify (hmac_sha256 key message_bytes) in
  Return (str "t=" ++ format_int timestamp_ms
          ++ str ",v1=" ++ signature ++ str ",kid=" ++ kid).
End Verify.

End Webhook.

(** * brique-102, examples/webhook_handler.py *)
Module WebhookHandler.
Import Py.

Definition WEBHOOK_TOLERANCE_SECONDS : Z := 300.

(** [dict(part.split("=", 1) for part in signature_header.split(","))]:
    an element that is not a pair is a [ValueError]. *)
Fixpoint dict_of_parts (segs : list pystr) (parts : gmap pystr pystr)
  : result (exn Empty_set) (gmap pystr pystr) :=
  match segs with
  | [] => Return parts
  | part :: rest =>
      kv <- try_or (unpack2 (split1 61 part)) ValueError ;;
      dict_of_parts rest (<[kv.1 := kv.2]> parts)
  end.

Section Verify.
Variable hmac_sha256 : bytes -> bytes -> bytes.
Variable todecimal : N -> option N.

(** The handler has no exception class of its own: every [KeyError] and
    [ValueError] inside the [try] is logged and becomes [False]. *)
Definition verify_signature
    (payload : bytes) (signature_header : pystr) (secret : pystr)
    (now_ms : Z) : result (exn Empty_set) bool :=
  catch
    (parts <- dict_of_parts (split 44 signature_header) empty ;;
     t <- getitem parts (str "t") ;;
     timestamp <- try_or (int todecimal t) ValueError ;;
     signature <- getitem parts (str "v1") ;;
     let kid := default (str "v1") (parts !! str "kid") in
     let current_time := now_ms in
     if (Z.abs (current_time - timestamp)
         >? WEBHOOK_TOLERANCE_SECONDS * 1000)%Z
     then Return false
     else
       prefix <- try_or (utf8_encode (format_int timestamp ++ str "."))
                   UnicodeEncodeError ;;
       let signed_payload := prefix ++ payload in
       key <- try_or (utf8_encode secret) UnicodeEncodeError ;;
       let expected_signature := hexlify (hmac_sha256 key signed_payload) in
       is_valid <- try_or (compare_digest expected_signature signature)
                     TypeError ;;
       Return is_valid)
    (fun e => if key_or_value_error e then Return false else Raise e).
End Verify.

End WebhookHandler.

(** * brique-105, molam_sdk/utils/idempotency.py *)
Module Idempotency.
Import Py.

(** [ValueError("Idempotency key too long (max 128 characters)")] *)
Inductive error : Type := Key_too_long.

(** [secrets.token_hex(nbytes)], given the bytes that the system's random
    source returned for the call. *)
Definition token_hex (random_bytes : bytes) : pystr := hexlify random_bytes.

(** [now_ms] is [int(time.time() * 1000)]; [random_bytes] are the twelve
    bytes drawn by [secrets.token_hex(12)]. *)
Definition make_idempotency_key
    (provided : option pystr) (now_ms : Z) (random_bytes : bytes)
  : result error pystr :=
  if truthy_opt provided then
    let provided := default [] provided in
    raise_if (128 <? length provided)%nat Key_too_long ;;
    Return provided
  else
    let ts := now_ms in
    let rand := token_hex random_bytes in
    Return (str "molam-" ++ format_int ts ++ str "-" ++ rand).

End Idempotency.

(** * Notions used to state the properties *)
Module Spec.
Import Py.

(** The failure kind that an outcome carries, if it is an error of the SDK. *)
Definition failure {M A : Type} (reason_of : M -> reason)
    (o : result (exn M) A) : option reason :=
  match o with
  | Raise (SdkError m) => Some (reason_of m)
  | _ => None
  end.

(** A header that [verify_molam_signature] reads as timestamp text [t] with
    integer value [ts], digest [sig] and key id [kid]. *)
Definition well_formed_102 (td : N -> option N) (header t sig kid : pystr)
    (ts : Z) : Prop :=
  truthy header = true /\
  exists parts, Webhooks.parse_parts (split 44 header) empty = Return parts /\
    parts !! str "t" = Some t /\ parts !! str "v1" = Some sig /\
    default (str "v1") (parts !! str "kid") = kid /\
    truthy t = true /\ truthy sig = true /\ int td t = Some ts.

(** The same for [verify_signature] of brique-105, where [kid] must be
    present. *)
Definition well_formed_105 (td : N -> option N) (header t sig kid : pystr)
    (ts : Z) : Prop :=
  exists parts, Webhook.parse_signature_header header = Return parts /\
    parts !! str "t" = Some t /\ parts !! str "v1" = Some sig /\
    parts !! str "kid" = Some kid /\ int td t = Some ts.

(** A header that [verify_molam_signature] reads as timestamp text [t] and
    digest [sig], and that holds no [kid] part. *)
Definition omits_kid_102 (header t sig : pystr) : Prop :=
  truthy header = true /\
  exists parts, Webhooks.parse_parts (split 44 header) empty = Return parts /\
    parts !! str "t" = Some t /\ parts !! str "v1" = Some sig /\
    parts !! str "kid" = None /\ truthy t = true /\ truthy sig = true.

(** A header that [parse_signature_header] accepts and that holds no [kid]
    part. *)
Definition omits_kid_105 (header : pystr) : Prop :=
  exists parts, Webhook.parse_signature_header header = Return parts /\
    parts !! str "kid" = None.

Definition is_hex (c : N) : bool :=
  is_digit c || ((97 <=? c) && (c <=? 102))%N.

(** The key and the value of one comma-separated part of the header, when the
    part holds an [=]. *)
Definition key_value (part : pystr) : option (pystr * pystr) :=
  unpack2 (split1 61 part).

(** The value paired with the rightmost occurrence of [k]. *)
Fixpoint last_value (k : pystr) (kvs : list (pystr * pystr)) : option pystr :=
  match kvs with
  | [] => None
  | (k', v) :: rest =>
      match last_value k rest with
      | Some v' => Some v'
      | None => if decide (k' = k) then Some v else None
      end
  end.

(** What [parse_signature_header] stores for a part: both sides stripped. *)
Definition stripped (kv : pystr * pystr) : pystr * pystr :=
  (strip kv.1, strip kv.2).

(** The header layout that [generate_signature] writes. *)
Definition wire_header (t sig kid : pystr) : pystr :=
  str "t=" ++ t ++ str ",v1=" ++ sig ++ str ",kid=" ++ kid.

(** No comma occurs in [s]. *)
Definition no_comma (s : pystr) : bool :=
  forallb (fun c => negb (c =? 44)%N) s.

(** A printable ASCII character that is not white space and not a comma. *)
Definition token_char (c : N) : bool :=
  (c <? 127)%N && negb (isspace c) && negb (c =? 44)%N.

(** Left-to-right evaluation of a digit string from an accumulator. *)
Fixpoint horner (acc : Z) (u : Decimal.uint) : Z :=
  match u with
  | Decimal.Nil => acc
  | Decimal.D0 u => horner (acc * 10 + 0) u
  | Decimal.D1 u => horner (acc * 10 + 1) u
  | Decimal.D2 u => horner (acc * 10 + 2) u
  | Decimal.D3 u => horner (acc * 10 + 3) u
  | Decimal.D4 u => horner (acc * 10 + 4) u
  | Decimal.D5 u => horner (acc * 10 + 5) u
  | Decimal.D6 u => horner (acc * 10 + 6) u
  | Decimal.D7 u => horner (acc * 10 + 7) u
  | Decimal.D8 u => horner (acc * 10 + 8) u
  | Decimal.D9 u => horner (acc * 10 + 9) u
  end.
End Spec.

(** * Concrete inputs *)
Module Sample.
Import Py.

(** The digest function of the examples. *)
Definition hmac : bytes -> bytes -> bytes := Hashlib.hmac_sha256.

(** A digit table without non-ASCII digits: the timestamps of the examples
    are ASCII, and for those [int] does not read the table. *)
Definition digits : N -> option N := fun _ => None.

(** [lambda kid: secret if kid == known else None] *)
Definition one_secret (known secret : pystr) : pystr -> option pystr :=
  fun kid => if bool_decide (kid = known) then Some secret else None.

(** [lambda kid: {k1: s1, k2: s2}.get(kid, "")] *)
Definition two_secrets (k1 s1 k2 s2 : pystr) : pystr -> option pystr :=
  fun kid =>
    if bool_decide (kid = k1) then Some s1
    else if bool_decide (kid = k2) then Some s2 else Some [].


(** The event of the test suites: the 65 bytes of the JSON object with
    [id] evt_123, [type] payment.succeeded and [data] with [amount] 100. *)
Definition event_body : bytes :=
  [x7b; x22; x69; x64; x22; x3a; x22; x65; x76; x74; x5f; x31; x32; x33;
   x22; x2c; x22; x74; x79; x70; x65; x22; x3a; x22; x70; x61; x79; x6d;
   x65; x6e; x74; x2e; x73; x75; x63; x63; x65; x65; x64; x65; x64; x22;
   x2c; x22; x64; x61; x74; x61; x22; x3a; x7b; x22; x61; x6d; x6f; x75;
   x6e; x74; x22; x3a; x31; x30; x30; x7d; x7d].
End Sample.

(** * Further Python primitives *)
Module PyMore.
Import Py.

(** An exception raised by a callee, seen through the types of its caller. *)
Definition reraise {E E' A : Type} (f : E -> E') (c : result E A)
  : result E' A :=
  match c with
  | Return a => Return a
  | Raise e => Raise (f e)
  end.

(** The same exception with the module's message replaced. *)
Definition exn_map {M M' : Type} (f : M -> M') (e : exn M) : exn M' :=
  match e with
  | SdkError m => SdkError (f m)
  | KeyError => KeyError
  | ValueError => ValueError
  | UnicodeDecodeError => UnicodeDecodeError
  | UnicodeEncodeError => UnicodeEncodeError
  | TypeError => TypeError
  end.

(** [dict(p.split("=", 1) for p in segs)]: an element that is not a pair is
    a [ValueError]. *)
Fixpoint dict_of_pairs {M : Type} (segs : list pystr)
    (parts : gmap pystr pystr) : result (exn M) (gmap pystr pystr) :=
  match segs with
  | [] => Return parts
  | p :: rest =>
      kv <- try_or (unpack2 (split1 61 p)) ValueError ;;
      dict_of_pairs rest (<[kv.1 := kv.2]> parts)
  end.

(** [s.lstrip(chars)] and [s.rstrip(chars)] for a one-character [chars]. *)
Fixpoint lstrip_char (c : N) (s : pystr) : pystr :=
  match s with
  | x :: s' => if (x =? c)%N then lstrip_char c s' else s
  | [] => []
  end.

Definition rstrip_char (c : N) (s : pystr) : pystr :=
  rev (lstrip_char c (rev s)).

(** [s.startswith(prefix)] and [s.startswith((p1, p2, ...))]. *)
Fixpoint startswith (prefix s : pystr) : bool :=
  match prefix, s with
  | [], _ => true
  | p :: prefix', x :: s' => (p =? x)%N && startswith prefix' s'
  | _ :: _, [] => false
  end.

Definition startswith_any (prefixes : list pystr) (s : pystr) : bool :=
  existsb (fun p => startswith p s) prefixes.

(** [a or b] for an [Optional[str]] and a [str]. *)
Definition or_else (a : option pystr) (b : pystr) : pystr :=
  if truthy_opt a then default [] a else b.

(** [os.getenv(name, default)] in the environment [environ]. *)
Definition getenv (environ : gmap pystr pystr) (name default_ : pystr)
  : pystr :=
  default default_ (environ !! name).

End PyMore.

(** * brique-102, molam_sdk/webhooks.py: [construct_event] *)
Module ConstructEvent.
Import Py PyMore.

(** The messages of [WebhookVerificationError] that [construct_event] can
    end with: those of [verify_molam_signature], and its own. *)
Inductive message : Type :=
| Verification (m : Webhooks.message)
| Invalid_JSON_payload.


Section Event.
Variable hmac_sha256 : bytes -> bytes -> bytes.
Variable todecimal : N -> option N.
(** The decoded JSON values, and [json.loads] on a [str]; [None] is
    [json.JSONDecodeError]. *)
Variable event : Type.
Variable json_loads : pystr -> option event.

End Event.

End ConstructEvent.

(** * brique-102, packages/python/molam/client.py *)
Module MolamClient.
Import Py PyMore.

(** The messages of the [ValueError]s that [verify_webhook] raises itself
    (held by [SdkError]); [ValueError] alone is the one of [dict] and
    [int]. *)
Inductive message : Type :=
| Invalid_signature_header
| Signature_timestamp_outside_tolerance
| No_secret_found (kid : pystr)
| Signature_mismatch.

Section Verify.
Variable hmac_sha256 : bytes -> bytes -> bytes.
Variable todecimal : N -> option N.

Definition verify_webhook
    (raw_body : bytes) (signature_header : pystr)
    (get_secret : pystr -> option pystr) (now_ms : Z)
  : result (exn message) bool :=
  parts <- dict_of_pairs (split 44 signature_header) empty ;;
  let timestamp_str := parts !! str "t" in
  let signature := parts !! str "v1" in
  let kid := default (str "v1") (parts !! str "kid") in
  raise_if (negb (truthy_opt timestamp_str) || negb (truthy_opt signature))
    (SdkError Invalid_signature_header) ;;
  let timestamp_str := default [] timestamp_str in
  let signature := default [] signature in
  timestamp <- try_or (int todecimal timestamp_str) ValueError ;;
  let now := now_ms in
  raise_if (Z.abs (now - timestamp) >? 5 * 60 * 1000)%Z
    (SdkError Signature_timestamp_outside_tolerance) ;;
  let secret := get_secret kid in
  raise_if (negb (truthy_opt secret)) (SdkError (No_secret_found kid)) ;;
  let secret := default [] secret in
  body <- try_or (utf8_decode raw_body) UnicodeDecodeError ;;
  let payload := timestamp_str ++ str "." ++ body in
  key <- try_or (utf8_encode secret) UnicodeEncodeError ;;
  message_bytes <- try_or (utf8_encode payload) UnicodeEncodeError ;;
  let computed := hexlify (hmac_sha256 key message_bytes) in
  equal <- try_or (compare_digest computed signature) TypeError ;;
  raise_if (negb equal) (SdkError Signature_mismatch) ;;
  Return true.
End Verify.

End MolamClient.

(** * brique-102, packages/python/molam/resources/webhooks.py *)
Module WebhooksResource.
Import Py PyMore.

(** The messages of the [ValueError]s that [verify_signature] raises
    itself. *)
Inductive message : Type :=
| Invalid_signature_header_format
| Signature_timestamp_outside_tolerance
| Signature_mismatch.

Section Verify.
Variable hmac_sha256 : bytes -> bytes -> bytes.
Variable todecimal : N -> option N.

(** The body is a [str] here, and the secret is given, not looked up. *)
Definition verify_signature
    (raw_body : pystr) (signature_header : pystr) (secret : pystr)
    (now_ms : Z) : result (exn message) bool :=
  parts <- dict_of_pairs (split 44 signature_header) empty ;;
  let timestamp_str := parts !! str "t" in
  let signature := parts !! str "v1" in
  raise_if (negb (truthy_opt timestamp_str) || negb (truthy_opt signature))
    (SdkError Invalid_signature_header_format) ;;
  let timestamp_str := default [] timestamp_str in
  let signature := default [] signature in
  timestamp <- try_or (int todecimal timestamp_str) ValueError ;;
  let now := now_ms in
  raise_if (Z.abs (now - timestamp) >? 5 * 60 * 1000)%Z
    (SdkError Signature_timestamp_outside_tolerance) ;;
  let payload := timestamp_str ++ str "." ++ raw_body in
  key <- try_or (utf8_encode secret) UnicodeEncodeError ;;
  message_bytes <- try_or (utf8_encode payload) UnicodeEncodeError ;;
  let computed := hexlify (hmac_sha256 key message_bytes) in
  equal <- try_or (compare_digest computed signature) TypeError ;;
  raise_if (negb equal) (SdkError Signature_mismatch) ;;
  Return true.
End Verify.

End WebhooksResource.

(** * brique-105, molam_sdk/config.py *)
Module Config.
Import Py PyMore.

Record Config : Type := {
  api_base : pystr;
  api_key : pystr;
  default_currency : pystr;
  default_locale : pystr;
  webhook_secret : pystr;
  timeout : Z;
  max_retries : Z
}.

(** The two [ValueError]s of the constructor. *)
Inductive error : Type :=
| Api_key_required
| Invalid_api_key_format.

(** [Config.__init__], reading the process environment [environ]. *)
Definition __init__
    (environ : gmap pystr pystr)
    (api_base : option pystr) (api_key : option pystr)
    (default_currency : pystr) (default_locale : pystr)
    (webhook_secret : option pystr) (timeout : Z) (max_retries : Z)
  : result error Config :=
  let self_api_base :=
    rstrip_char 47
      (or_else api_base
         (getenv environ (str "MOLAM_API_BASE") (str "https://api.molam.com"))) in
  let self_api_key :=
    or_else api_key (getenv environ (str "MOLAM_API_KEY") []) in
  let self_default_currency :=
    or_else (Some default_currency)
      (getenv environ (str "MOLAM_DEFAULT_CURRENCY") (str "USD")) in
  let self_default_locale :=
    or_else (Some default_locale)
      (getenv environ (str "MOLAM_DEFAULT_LOCALE") (str "en")) in
  let self_webhook_secret :=
    or_else webhook_secret (getenv environ (str "MOLAM_WEBHOOK_SECRET") []) in
  raise_if (negb (truthy self_api_key)) Api_key_required ;;
  raise_if (negb (startswith_any [str "sk_"; str "jwt_"] self_api_key))
    Invalid_api_key_format ;;
  Return {| api_base := self_api_base;
            api_key := self_api_key;
            default_currency := self_default_currency;
            default_locale := self_default_locale;
            webhook_secret := self_webhook_secret;
            timeout := timeout;
            max_retries := max_retries |}.

End Config.

(** * brique-105, molam_sdk/client.py *)
Module Client.
Import Py PyMore.

(** What [_request] returns or attaches to an [ApiError]: the value that
    [json.loads] gave, the dictionary [{}], or [{"body": text}]. *)
Inductive data (J : Type) : Type :=
| Loaded (j : J)
| Empty_dict
| Body_dict (text : pystr).
Arguments Loaded {J} j.
Arguments Empty_dict {J}.
Arguments Body_dict {J} text.

(** [ApiError]: the message, and the attributes set by its constructor. *)
Record ApiError (J : Type) : Type := {
  message : pystr;
  status_code : Z;
  payload : data J;
  request_id : option pystr
}.
Arguments message {J} _.
Arguments status_code {J} _.
Arguments payload {J} _.
Arguments request_id {J} _.

(** What [_request] can raise: the [ValueError] of [make_idempotency_key],
    an exception of the HTTP adapter, or an [ApiError]. *)
Inductive error (J X : Type) : Type :=
| Key_error (e : Idempotency.error)
| Adapter_error (x : X)
| Api_error (e : ApiError J).
Arguments Key_error {J X} e.
Arguments Adapter_error {J X} x.
Arguments Api_error {J X} e.

Section Request.
(** The decoded JSON values with [json.loads] ([None]: it raised) and their
    truth value; the request bodies; the exceptions of the adapter. *)
Variable J : Type.
Variable json_loads : pystr -> option J.
Variable bool_of : J -> bool.
Variable B : Type.
Variable X : Type.
(** [self.http.send(method, url, headers, json, timeout)] *)
Variable send :
  pystr -> pystr -> gmap pystr pystr -> option B -> Z
  -> result X (Z * pystr * gmap pystr pystr).

Definition _headers (config : Config.Config)
    (extra : option (gmap pystr pystr)) : gmap pystr pystr :=
  let headers : gmap pystr pystr :=
    <[str "User-Agent" := str "Molam-Python-SDK/0.1.0"]>
      (<[str "Content-Type" := str "application/json"]>
         (<[str "Authorization" := str "Bearer " ++ Config.api_key config]>
            empty)) in
  match extra with
  | Some extra =>
      if bool_decide (extra = empty) then headers else extra ∪ headers
  | None => headers
  end.

(** [ApiError.__init__]: [self.payload = payload or {}]. *)
Definition make_ApiError (message : pystr) (status_code : Z)
    (payload : data J) (request_id : option pystr) : ApiError J :=
  {| message := message;
     status_code := status_code;
     payload := match payload with
                | Loaded j => if bool_of j then Loaded j else Empty_dict
                | Empty_dict => Empty_dict
                | Body_dict text => Body_dict text
                end;
     request_id := request_id |}.

(** [now_ms] and [random_bytes] are the clock and the random source that
    [make_idempotency_key] would read. *)
Definition _request (config : Config.Config)
    (method path : pystr) (body : option B)
    (idempotency_key : option pystr) (now_ms : Z) (random_bytes : bytes)
  : result (error J X) (data J) :=
  let url := Config.api_base config ++ str "/" ++ lstrip_char 47 path in
  let headers := _headers config None in
  headers <-
    (if truthy_opt idempotency_key then
       key <- reraise Key_error
                (Idempotency.make_idempotency_key idempotency_key
                   now_ms random_bytes) ;;
       Return (<[str "Idempotency-Key" := key]> headers)
     else Return headers) ;;
  response <- reraise Adapter_error
                (send method url headers body (Config.timeout config)) ;;
  let '(status, text, resp_headers) := response in
  if negb ((200 <=? status) && (status <? 300))%Z then
    let payload :=
      if truthy text then
        match json_loads text with
        | Some j => Loaded j
        | None => Body_dict text
        end
      else Empty_dict in
    let request_id := resp_headers !! str "X-Request-Id" in
    Raise (Api_error
             (make_ApiError (str "API returned " ++ format_int status)
                status payload request_id))
  else
    if truthy text then
      match json_loads text with
      | Some j => Return (Loaded j)
      | None => Return Empty_dict
      end
    else Return Empty_dict.
End Request.

Section Webhooks.
Variable hmac_sha256 : bytes -> bytes -> bytes.
Variable todecimal : N -> option N.

(** The resolver handed to [verify_signature] returns the configured
    secret for every key id; the tolerance is the default one. *)
Definition verify_webhook_signature (config : Config.Config)
    (signature_header : pystr) (raw_body : bytes) (now_ms : Z)
  : result (exn Webhook.message) bool :=
  let get_secret := fun kid : pystr => Some (Config.webhook_secret config) in
  Webhook.verify_signature hmac_sha256 todecimal
    signature_header raw_body get_secret (5 * 60 * 1000) now_ms.
End Webhooks.

End Client.

(** * brique-102, examples/webhook_handler.py: the store of processed
    events *)
Module ProcessedEvents.
Import Py.

(** [processed_events = set()] *)
Definition processed_events : gset pystr := ∅.

(** [is_duplicate_event(event_id)] on the store [processed_events]: the
    answer and the store afterwards. *)
Definition is_duplicate_event (event_id : pystr)
    (processed_events : gset pystr) : bool * gset pystr :=
  if bool_decide (event_id ∈ processed_events) then (true, processed_events)
  else (false, {[ event_id ]} ∪ processed_events).

End ProcessedEvents.

(** * Notions used to state the properties of the callers *)
Module CallerSpec.
Import Py PyMore Spec.

(** The failure kinds behind the messages of the two verifiers of
    packages/python/molam. *)
Definition client_reason (m : MolamClient.message) : reason :=
  match m with
  | MolamClient.Invalid_signature_header => MalformedHeader
  | MolamClient.Signature_timestamp_outside_tolerance =>
      TimestampOutOfTolerance
  | MolamClient.No_secret_found _ => UnknownKeyId
  | MolamClient.Signature_mismatch => SignatureMismatch
  end.

Definition resource_reason (m : WebhooksResource.message) : reason :=
  match m with
  | WebhooksResource.Invalid_signature_header_format => MalformedHeader
  | WebhooksResource.Signature_timestamp_outside_tolerance =>
      TimestampOutOfTolerance
  | WebhooksResource.Signature_mismatch => SignatureMismatch
  end.

(** An outcome with the message of its error replaced by the failure
    kind. *)
Definition verdict {M : Type} (reason_of : M -> reason)
    (o : result (exn M) bool) : result (exn reason) bool :=
  reraise (exn_map reason_of) o.

(** A [ValueError] or one of its subclasses. *)
Definition is_value_error {M : Type} (e : exn M) : bool :=
  match e with
  | SdkError _ | ValueError | UnicodeDecodeError | UnicodeEncodeError => true
  | KeyError | TypeError => false
  end.

(** The URL and the headers of the request that [_request] hands to the
    adapter. *)
Definition request_url (config : Config.Config) (path : pystr) : pystr :=
  Config.api_base config ++ str "/" ++ lstrip_char 47 path.

Definition request_headers (config : Config.Config)
    (idempotency_key : option pystr) : gmap pystr pystr :=
  if truthy_opt idempotency_key
  then <[str "Idempotency-Key" := default [] idempotency_key]>
         (Client._headers config None)
  else Client._headers config None.

(** The answers of [is_duplicate_event] to a sequence of deliveries, and the
    store afterwards. *)
Fixpoint deliveries (event_ids : list pystr) (processed_events : gset pystr)
  : list bool * gset pystr :=
  match event_ids with
  | [] => ([], processed_events)
  | event_id :: rest =>
      let '(duplicate, processed_events) :=
        ProcessedEvents.is_duplicate_event event_id processed_events in
      let '(answers, processed_events) := deliveries rest processed_events in
      (duplicate :: answers, processed_events)
  end.

End CallerSpec.

(** * Concrete inputs for the client *)
Module SampleClient.
Import Py PyMore.

Definition config : Config.Config :=
  {| Config.api_base := str "https://api.molam.com";
     Config.api_key := str "sk_test_1";
     Config.default_currency := str "USD";
     Config.default_locale := str "en";
     Config.webhook_secret := str "whsec_test_secret_123";
     Config.timeout := 30;
     Config.max_retries := 3 |}.

(** A stand-in for [json.loads]: a text that opens with a brace is kept as
    it is, any other text is refused; [{}] is the falsy value. *)
Definition json_loads (text : pystr) : option pystr :=
  if startswith (str "{") text then Some text else None.

Definition bool_of (j : pystr) : bool := negb (bool_decide (j = str "{}")).

(** An adapter that cannot connect, and one that answers 404. *)
Definition unreachable
    (method url : pystr) (headers : gmap pystr pystr) (json : option unit)
    (timeout : Z) : result unit (Z * pystr * gmap pystr pystr) :=
  Raise tt.

Definition not_found
    (method url : pystr) (headers : gmap pystr pystr) (json : option unit)
    (timeout : Z) : result unit (Z * pystr * gmap pystr pystr) :=
  Return (404%Z, str "no such intent",
          {[ str "X-Request-Id" := str "req_1" ]}).

End SampleClient.

(** * Tactics *)

(** Linear arithmetic with division and remainder by constants. *)
Ltac ndiv := zify; Z.to_euclidean_division_equations; lia.

(** Replace the literals [str "..."] of the goal by their code points. *)
Ltac eval_str :=
  repeat match goal with
  | |- context [Py.str ?s] =>
      let v := eval vm_compute in (Py.str s) in change (Py.str s) with v
  end.

(** Run the statements whose outcome is known. *)
Ltac exec :=
  cbn [bind raise_if try_or catch getitem key_or_value_error negb orb andb
       Py.truthy_opt default from_option id fst snd].

(** The same, through the verdicts of the callers. *)
Ltac exec' :=
  cbn [bind raise_if try_or catch getitem key_or_value_error negb orb andb
       Py.truthy_opt default from_option id fst snd
       PyMore.reraise PyMore.exn_map CallerSpec.verdict
       CallerSpec.client_reason CallerSpec.resource_reason].

(** Split on the first statement whose outcome is not known. *)
Ltac branch :=
  match goal with
  | |- context [raise_if ?b _] => destruct b eqn:?
  | |- context [try_or ?o _] => destruct o eqn:?
  | |- context [if ?b then _ else _] => destruct b eqn:?
  | |- context [catch ?c _] => destruct c eqn:?
  end.

(** Evaluate both sides of each equation of a conjunction. *)
Ltac run :=
  cbv zeta; repeat match goal with |- _ /\ _ => split end;
  vm_compute; reflexivity.

(** * The primitives on sample inputs

    Each line is the answer of the interpreter for the same call. *)
Module PyChecks.
Import Py.

Example split_keeps_empty_parts :
  split 44 (str "a,,b") = [str "a"; []; str "b"] /\ split 44 [] = [[]]
  /\ split 44 (str "a,") = [str "a"; []].
Proof. run. Qed.

Example split1_splits_once :
  split1 61 (str "kid=a=b") = [str "kid"; str "a=b"]
  /\ split1 61 (str "invalid_format") = [str "invalid_format"]
  /\ unpack2 (split1 61 (str "invalid_format")) = None.
Proof. run. Qed.

Example strip_unicode_blanks :
  strip ([0x1C; 32] ++ str "a b" ++ [0xA0; 0x2003; 9])%N = str "a b".
Proof. run. Qed.

Example int_accepts :
  int Sample.digits (str " 5 ") = Some 5%Z
  /\ int Sample.digits (str "1_000") = Some 1000%Z
  /\ int Sample.digits (str "007") = Some 7%Z
  /\ int Sample.digits (str "+5") = Some 5%Z
  /\ int Sample.digits (str "-5") = Some (-5)%Z
  /\ int Sample.digits (str "5" ++ [0x85%N]) = Some 5%Z
  /\ int (fun c => if (c =? 0x663)%N then Some 3%N else None)
         (str "1" ++ [0x663%N]) = Some 13%Z.
Proof. run. Qed.

Example int_refuses :
  int Sample.digits [] = None
  /\ int Sample.digits (str "+") = None
  /\ int Sample.digits (str "_1") = None
  /\ int Sample.digits (str "1_") = None
  /\ int Sample.digits (str "1__0") = None
  /\ int Sample.digits (str "- 5") = None
  /\ int Sample.digits (0x1C%N :: str "5") = None
  /\ int Sample.digits (str "5" ++ [0x7F%N]) = None
  /\ int Sample.digits (str "invalid") = None.
Proof. run. Qed.

Example format_int_samples :
  format_int 0 = str "0" /\ format_int 1705420800000 = str "1705420800000"
  /\ format_int (-42) = str "-42".
Proof. run. Qed.

Example utf8_samples :
  utf8_encode [233; 8364; 128512]%N
  = Some [xc3; xa9; xe2; x82; xac; xf0; x9f; x98; x80]
  /\ utf8_decode [xc3; xa9; xe2; x82; xac; xf0; x9f; x98; x80]
     = Some [233; 8364; 128512]%N
  /\ utf8_decode [xf4; x8f; xbf; xbf] = Some [0x10FFFF%N]
  /\ utf8_decode [xff] = None
  /\ utf8_decode [xc0; x80] = None
  /\ utf8_decode [xed; xa0; x80] = None
  /\ utf8_decode [xf4; x90; x80; x80] = None
  /\ utf8_decode [xc2] = None
  /\ utf8_encode [0xD800%N] = None.
Proof. run. Qed.

Example compare_digest_samples :
  compare_digest (str "abc") (str "abc") = Some true
  /\ compare_digest (str "abc") (str "abd") = Some false
  /\ compare_digest (str "abc") [233%N] = None.
Proof. run. Qed.

(** FIPS 180-4 and RFC 4231 test vectors. *)
Example sha256_vectors :
  hexlify (Hashlib.sha256 [])
  = str "e3b0c44298fc1c149afbf4c8996fb92427ae41e4649b934ca495991b7852b855"
  /\ hexlify (Hashlib.sha256 (Hashlib.b "abc"))
     = str "ba7816bf8f01cfea414140de5dae2223b00361a396177a9cb410ff61f20015ad"
  /\ hexlify (Hashlib.sha256
       (Hashlib.b "abcdbcdecdefdefgefghfghighijhijkijkljklmklmnlmnomnopnopq"))
     = str "248d6a61d20638b8e5c026930c3e6039a33ce45964ff2167f6ecedd419db06c1".
Proof. run. Qed.

Example hmac_sha256_vectors :
  hexlify (Hashlib.hmac_sha256 (repeat x0b 20) (Hashlib.b "Hi There"))
  = str "b0344c61d8db38535ca8afceaf0bf12b881dc200c9833da726e9376c2e32cff7"
  /\ hexlify (Hashlib.hmac_sha256 (repeat xaa 131)
       (Hashlib.b "Test Using Larger Than Block-Size Key - Hash Key First"))
     = str "60e431591ee0b67f0d8a26aacbf5b77f8e0bc6213728c5140546040f0ee37f54".
Proof. run. Qed.
End PyChecks.

(** * Facts about the primitives *)
Module PyFacts.
Import Py Spec.

Lemma byte_of_to_N (x : byte) : byte_of_N (Byte.to_N x) = x.
Proof. unfold byte_of_N. now rewrite Byte.of_to_N. Qed.

Lemma to_N_lt (x : byte) : (Byte.to_N x < 256)%N.
Proof. pose proof (Byte.to_N_bounded x). lia. Qed.

Lemma encode_cp_1 n0 :
  (n0 < 0x80)%N -> encode_cp n0 = Some [byte_of_N n0].
Proof. intros H. unfold encode_cp. destruct (N.ltb_spec n0 0x80); [reflexivity | lia]. Qed.

Lemma encode_cp_2 n0 n1 :
  (0xC2 <= n0 < 0xE0)%N -> is_cont n1 = true ->
  encode_cp ((n0 - 0xC0) * 64 + (n1 - 0x80)) = Some [byte_of_N n0; byte_of_N n1].
Proof.
  intros H0 H1. unfold is_cont in H1.
  apply andb_true_iff in H1 as [H1 H1'].
  apply N.leb_le in H1. apply N.ltb_lt in H1'.
  unfold encode_cp.
  destruct (N.ltb_spec ((n0 - 0xC0) * 64 + (n1 - 0x80)) 0x80); [lia |].
  destruct (N.ltb_spec ((n0 - 0xC0) * 64 + (n1 - 0x80)) 0x800); [| lia].
  repeat f_equal; ndiv.
Qed.

Lemma encode_cp_3 n0 n1 n2 :
  (0xE0 <= n0 < 0xF0)%N -> is_cont n1 = true -> is_cont n2 = true ->
  let c := ((n0 - 0xE0) * 4096 + (n1 - 0x80) * 64 + (n2 - 0x80))%N in
  (0x800 <=? c)%N = true -> ((0xD800 <=? c) && (c <=? 0xDFFF))%N = false ->
  encode_cp c = Some [byte_of_N n0; byte_of_N n1; byte_of_N n2].
Proof.
  intros H0 H1 H2 c Hlo Hsur. unfold is_cont in H1, H2.
  apply andb_true_iff in H1 as [H1 H1'], H2 as [H2 H2'].
  apply N.leb_le in H1, H2, Hlo. apply N.ltb_lt in H1', H2'.
  unfold encode_cp. rewrite Hsur.
  destruct (N.ltb_spec c 0x80); [lia |].
  destruct (N.ltb_spec c 0x800); [lia |].
  destruct (N.ltb_spec c 0x10000); [| subst c; lia].
  subst c. repeat f_equal; ndiv.
Qed.

Lemma encode_cp_4 n0 n1 n2 n3 :
  (0xF0 <= n0 < 0xF5)%N ->
  is_cont n1 = true -> is_cont n2 = true -> is_cont n3 = true ->
  let c := ((n0 - 0xF0) * 262144 + (n1 - 0x80) * 4096
            + (n2 - 0x80) * 64 + (n3 - 0x80))%N in
  (0x10000 <=? c)%N = true -> (c <? 0x110000)%N = true ->
  encode_cp c = Some [byte_of_N n0; byte_of_N n1; byte_of_N n2; byte_of_N n3].
Proof.
  intros H0 H1 H2 H3 c Hlo Hhi. unfold is_cont in H1, H2, H3.
  apply andb_true_iff in H1 as [H1 H1'], H2 as [H2 H2'], H3 as [H3 H3'].
  apply N.leb_le in H1, H2, H3, Hlo. apply N.ltb_lt in H1', H2', H3', Hhi.
  unfold encode_cp.
  destruct (N.ltb_spec c 0x80); [lia |].
  destruct (N.ltb_spec c 0x800); [lia |].
  destruct (N.ltb_spec c 0x10000); [lia |].
  destruct (N.ltb_spec c 0x110000); [| lia].
  subst c. repeat f_equal; ndiv.
Qed.

(** One step of the decoder, read backwards: the first code point, its
    encoding, and the rest of the input. *)
Lemma utf8_decode_cons b0 r0 s :
  utf8_decode (b0 :: r0) = Some s ->
  exists c enc rest s',
    s = c :: s' /\ b0 :: r0 = enc ++ rest /\ encode_cp c = Some enc
    /\ utf8_decode rest = Some s' /\ (length rest <= length r0)%nat.
Proof.
  cbn [utf8_decode]. cbv zeta.
  destruct (N.ltb_spec (Byte.to_N b0) 0x80) as [H1|H1].
  { destruct (utf8_decode r0) as [s'|] eqn:E; [|discriminate].
    intros [= <-]. exists (Byte.to_N b0), [b0], r0, s'.
    rewrite encode_cp_1, byte_of_to_N by assumption. auto. }
  destruct (N.ltb_spec (Byte.to_N b0) 0xC2) as [H2|H2]; [discriminate|].
  destruct (N.ltb_spec (Byte.to_N b0) 0xE0) as [H3|H3].
  { destruct r0 as [|b1 r1]; [discriminate|].
    destruct (is_cont (Byte.to_N b1)) eqn:C1; [|discriminate].
    destruct (utf8_decode r1) as [s'|] eqn:E; [|discriminate].
    intros [= <-].
    exists ((Byte.to_N b0 - 0xC0) * 64 + (Byte.to_N b1 - 0x80))%N, [b0; b1], r1, s'.
    rewrite encode_cp_2, !byte_of_to_N by (auto; lia).
    cbn. repeat split; auto. }
  destruct (N.ltb_spec (Byte.to_N b0) 0xF0) as [H4|H4].
  { destruct r0 as [|b1 [|b2 r2]]; [discriminate..|].
    destruct (is_cont (Byte.to_N b1)) eqn:C1; [|discriminate].
    destruct (is_cont (Byte.to_N b2)) eqn:C2; [|discriminate].
    cbn [andb].
    match goal with |- context [(0x800 <=? ?c)%N] => set (cp := c) end.
    destruct (0x800 <=? cp)%N eqn:Hlo; [|discriminate].
    destruct ((0xD800 <=? cp) && (cp <=? 0xDFFF))%N eqn:Hs; [discriminate|].
    cbn [andb negb].
    destruct (utf8_decode r2) as [s'|] eqn:E; [|discriminate].
    intros [= <-]. exists cp, [b0; b1; b2], r2, s'.
    subst cp. rewrite encode_cp_3, !byte_of_to_N by (auto; lia).
    cbn. repeat split; auto. }
  destruct (N.ltb_spec (Byte.to_N b0) 0xF5) as [H5|H5]; [|discriminate].
  destruct r0 as [|b1 [|b2 [|b3 r3]]]; [discriminate..|].
  destruct (is_cont (Byte.to_N b1)) eqn:C1; [|discriminate].
  destruct (is_cont (Byte.to_N b2)) eqn:C2; [|discriminate].
  destruct (is_cont (Byte.to_N b3)) eqn:C3; [|discriminate].
  cbn [andb].
  match goal with |- context [(0x10000 <=? ?c)%N] => set (cp := c) end.
  destruct (0x10000 <=? cp)%N eqn:Hlo; [|discriminate].
  destruct (cp <? 0x110000)%N eqn:Hhi; [|discriminate].
  cbn [andb].
  destruct (utf8_decode r3) as [s'|] eqn:E; [|discriminate].
  intros [= <-]. exists cp, [b0; b1; b2; b3], r3, s'.
  subst cp. rewrite encode_cp_4, !byte_of_to_N by (auto; lia).
  cbn. repeat split; auto.
Qed.

(** Decoding accepts exactly what encoding produces: a body that decodes is
    given back byte for byte by [encode]. *)
Lemma utf8_encode_decode b : forall s,
  utf8_decode b = Some s -> utf8_encode s = Some b.
Proof.
  remember (length b) as n eqn:Hn.
  revert b Hn. induction n as [n IH] using lt_wf_ind. intros b Hn s H.
  destruct b as [|b0 r0].
  { cbn in H. injection H as <-. reflexivity. }
  apply utf8_decode_cons in H as (c & enc & rest & s' & -> & Hb & Hc & Hr & Hl).
  cbn [utf8_encode]. rewrite Hc.
  rewrite (IH (length rest)) with (b := rest) (s := s'); auto.
  - now rewrite Hb.
  - subst n. cbn. lia.
Qed.

Lemma utf8_encode_app a : forall b,
  utf8_encode (a ++ b) =
  match utf8_encode a, utf8_encode b with
  | Some x, Some y => Some (x ++ y)
  | _, _ => None
  end.
Proof.
  induction a as [|c a IH]; intros b; cbn [app utf8_encode].
  - now destruct (utf8_encode b).
  - rewrite IH. destruct (encode_cp c), (utf8_encode a), (utf8_encode b);
      cbn; try reflexivity. now rewrite app_assoc.
Qed.

Lemma utf8_encode_ascii s :
  is_ascii s = true -> utf8_encode s = Some (map byte_of_N s).
Proof.
  induction s as [|c s IH]; cbn [is_ascii forallb utf8_encode map]; [reflexivity|].
  intros [Hc Hs]%andb_true_iff. apply N.ltb_lt in Hc.
  rewrite encode_cp_1, (IH Hs) by assumption. reflexivity.
Qed.

(** ** Characters of decimal numbers and hex digests *)

Lemma token_char_digit c : is_digit c = true -> token_char c = true.
Proof.
  unfold is_digit, token_char, isspace. intros [H1 H2]%andb_true_iff.
  apply N.leb_le in H1, H2.
  repeat match goal with
  | |- context [(?a <? ?b)%N] => destruct (N.ltb_spec a b); try lia
  | |- context [(?a <=? ?b)%N] => destruct (N.leb_spec a b); try lia
  | |- context [(?a =? ?b)%N] => destruct (N.eqb_spec a b); try lia
  end; reflexivity.
Qed.

Lemma uint_chars_digits u : forallb is_digit (uint_chars u) = true.
Proof. induction u; cbn; auto. Qed.

Lemma forallb_impl {A} (f g : A -> bool) l :
  (forall x, f x = true -> g x = true) ->
  forallb f l = true -> forallb g l = true.
Proof.
  intros Hfg. induction l as [|x l IH]; cbn; [auto|].
  intros [Hx Hl]%andb_true_iff. now rewrite (Hfg x Hx), IH.
Qed.

Lemma format_int_token z : forallb token_char (format_int z) = true.
Proof.
  unfold format_int. destruct (Z.to_int z); cbn [forallb].
  - eapply forallb_impl; [apply token_char_digit | apply uint_chars_digits].
  - change (token_char 45) with true. cbn [andb].
    eapply forallb_impl; [apply token_char_digit | apply uint_chars_digits].
Qed.

Lemma hex_char_token n : (n < 16)%N -> token_char (hex_char n) = true.
Proof.
  intros H. unfold hex_char, token_char, isspace.
  repeat match goal with
  | |- context [(?a <? ?b)%N] => destruct (N.ltb_spec a b); try lia
  | |- context [(?a <=? ?b)%N] => destruct (N.leb_spec a b); try lia
  | |- context [(?a =? ?b)%N] => destruct (N.eqb_spec a b); try lia
  end; reflexivity.
Qed.

Lemma hexlify_token b : forallb token_char (hexlify b) = true.
Proof.
  induction b as [|x b IH]; cbn [hexlify forallb]; [reflexivity|].
  pose proof (to_N_lt x).
  rewrite !hex_char_token, IH; [reflexivity | ndiv | ndiv].
Qed.

Lemma token_is_ascii s : forallb token_char s = true -> is_ascii s = true.
Proof.
  apply forallb_impl. unfold token_char. intros x H.
  apply andb_true_iff in H as [[H _]%andb_true_iff _].
  apply N.ltb_lt in H. apply N.ltb_lt. lia.
Qed.

Lemma hexlify_length b : length (hexlify b) = (2 * length b)%nat.
Proof. induction b; cbn [hexlify length]; lia. Qed.




Lemma compare_digest_refl a :
  is_ascii a = true -> compare_digest a a = Some true.
Proof.
  intros H. unfold compare_digest. rewrite H. cbn.
  now rewrite bool_decide_eq_true_2.
Qed.

(** ** [split] and [strip] on strings without separators or blanks *)

Lemma split_nonempty sep s : split sep s <> [].
Proof.
  destruct s as [|c s]; cbn; [discriminate|].
  destruct (c =? sep)%N; [discriminate|]. now destruct (split sep s).
Qed.

Lemma split_app_sep sep a : forall r,
  forallb (fun c => negb (c =? sep)%N) a = true ->
  split sep (a ++ sep :: r) = a :: split sep r.
Proof.
  induction a as [|c a IH]; intros r; cbn [app forallb split].
  - now rewrite N.eqb_refl.
  - intros [Hc Ha]%andb_true_iff. apply negb_true_iff in Hc.
    now rewrite Hc, IH.
Qed.

Lemma split_no_sep sep a :
  forallb (fun c => negb (c =? sep)%N) a = true -> split sep a = [a].
Proof.
  induction a as [|c a IH]; cbn [forallb split]; [reflexivity|].
  intros [Hc Ha]%andb_true_iff. apply negb_true_iff in Hc.
  now rewrite Hc, IH.
Qed.

Lemma token_no_comma s :
  forallb token_char s = true ->
  forallb (fun c => negb (c =? 44)%N) s = true.
Proof.
  apply forallb_impl. unfold token_char. intros x H.
  now apply andb_true_iff in H as [_ H].
Qed.

Lemma lstrip_id s :
  forallb (fun c => negb (isspace c)) s = true -> lstrip s = s.
Proof.
  destruct s as [|c s]; cbn [forallb lstrip]; [reflexivity|].
  intros [Hc _]%andb_true_iff. apply negb_true_iff in Hc. now rewrite Hc.
Qed.

Lemma strip_id s :
  forallb (fun c => negb (isspace c)) s = true -> strip s = s.
Proof.
  intros H. unfold strip, rstrip. rewrite (lstrip_id s H).
  rewrite lstrip_id, rev_involutive; [reflexivity|].
  rewrite forallb_forall in *. intros x Hx. apply H. now apply in_rev.
Qed.

Lemma token_strip s : forallb token_char s = true -> strip s = s.
Proof.
  intros H. apply strip_id. revert H. apply forallb_impl.
  unfold token_char. intros x H.
  now apply andb_true_iff in H as [[_ H]%andb_true_iff _].
Qed.

(** ** [int(str(n)) = n] *)

Lemma scan_digits_uint u : forall acc,
  scan_digits acc (uint_chars u) = Some (horner acc u, []).
Proof. induction u; intros acc; cbn; auto. Qed.

Lemma horner_pos u : forall p : positive,
  horner (Z.pos p) u = Z.pos (Pos.of_uint_acc u p).
Proof.
  induction u; intros p; cbn [horner Pos.of_uint_acc]; [reflexivity|..];
    match goal with
    | |- horner ?a _ = _ =>
        match goal with
        | |- _ = Z.pos (Pos.of_uint_acc _ ?q) =>
            replace a with (Z.pos q) by lia; apply IHu
        end
    end.
Qed.

Lemma horner_zero u : horner 0 u = Z.of_N (Pos.of_uint u).
Proof.
  induction u; cbn [horner Pos.of_uint]; [reflexivity | exact IHu |..];
    cbn [Z.mul Z.add Z.of_N]; apply horner_pos.
Qed.

Lemma transform_digits td s :
  forallb token_char s = true -> transform td s = Some s.
Proof.
  intros H. unfold transform. now rewrite (token_is_ascii s H).
Qed.

Lemma parse_long_uint u :
  u <> Decimal.Nil -> parse_long (uint_chars u) = Some (Z.of_uint u).
Proof.
  intros Hu. unfold Z.of_uint. rewrite <- horner_zero.
  destruct u; [congruence|..]; unfold parse_long;
    cbn -[scan_digits horner]; rewrite scan_digits_uint; reflexivity.
Qed.

Lemma parse_long_neg u :
  u <> Decimal.Nil ->
  parse_long (45%N :: uint_chars u) = Some (- Z.of_uint u)%Z.
Proof.
  intros Hu. unfold Z.of_uint. rewrite <- horner_zero.
  destruct u; [congruence|..]; unfold parse_long;
    cbn -[scan_digits horner]; rewrite scan_digits_uint; reflexivity.
Qed.

Lemma to_int_nonnil z :
  match Z.to_int z with Decimal.Pos u | Decimal.Neg u => u <> Decimal.Nil end.
Proof.
  destruct z; cbn; [discriminate | apply Unsigned.to_uint_nonnil..].
Qed.

(** Reading back the decimal form of an integer gives the integer, whatever
    the digit table of the interpreter. *)
Lemma int_format_int td z : int td (format_int z) = Some z.
Proof.
  unfold int. rewrite transform_digits by apply format_int_token.
  pose proof (to_int_nonnil z) as Hn. pose proof (DecimalZ.of_to z) as Hz.
  unfold format_int. destruct (Z.to_int z) as [u|u]; cbn [Z.of_int] in Hz.
  - now rewrite parse_long_uint, Hz.
  - now rewrite parse_long_neg, Hz.
Qed.
End PyFacts.

(** * Parsing of the signature header *)
Module ParseFacts.
Import Py Spec.

Lemma parse_parts_spec segs : forall m,
  match mapM key_value segs with
  | Some kvs =>
      exists parts, Webhooks.parse_parts segs m = Return parts /\
        forall k, parts !! k =
                  match last_value k kvs with Some v => Some v | None => m !! k end
  | None => Webhooks.parse_parts segs m = Raise ValueError
  end.
Proof.
  induction segs as [|part segs IH]; intros m; cbn [mapM Webhooks.parse_parts].
  - exists m. auto.
  - fold (key_value part). destruct (key_value part) as [[k0 v0]|]; cbn;
      [|reflexivity].
    specialize (IH (<[k0:=v0]> m)).
    destruct (mapM key_value segs) as [kvs|]; cbn; [|exact IH].
    destruct IH as (parts & Hp & Hl). exists parts. split; [exact Hp|].
    intros k. rewrite Hl. destruct (last_value k kvs); [reflexivity|].
    rewrite lookup_insert. destruct (decide (k0 = k)); reflexivity.
Qed.

Lemma parse_pairs_spec segs : forall m,
  match mapM key_value segs with
  | Some kvs =>
      exists parts, Webhook.parse_pairs segs m = Return parts /\
        forall k, parts !! k =
                  match last_value k (map stripped kvs) with
                  | Some v => Some v
                  | None => m !! k
                  end
  | None =>
      exists p, Webhook.parse_pairs segs m
                = Raise (SdkError (Webhook.Invalid_signature_header_format p))
  end.
Proof.
  induction segs as [|part segs IH]; intros m; cbn [mapM Webhook.parse_pairs].
  - exists m. auto.
  - fold (key_value part).
    destruct (key_value part) as [[k0 v0]|]; cbn -[strip]; [|eauto].
    specialize (IH (<[strip k0:=strip v0]> m)).
    destruct (mapM key_value segs) as [kvs|]; cbn -[strip]; [|exact IH].
    destruct IH as (parts & Hp & Hl). exists parts. split; [exact Hp|].
    intros k. rewrite Hl.
    destruct (last_value k (map stripped kvs)); [reflexivity|].
    rewrite lookup_insert. destruct (decide (strip k0 = k)); reflexivity.
Qed.

End ParseFacts.

(** * Facts about the verifiers *)
Module VerifyFacts.
Import Py Spec ParseFacts PyFacts.

Lemma required_present (parts : gmap pystr pystr) t sig kid :
  parts !! str "t" = Some t -> parts !! str "v1" = Some sig ->
  parts !! str "kid" = Some kid ->
  bool_decide (Webhook.required_fields ⊆ dom parts) = true.
Proof.
  intros Ht Hs Hk. apply bool_decide_eq_true_2. unfold Webhook.required_fields.
  intros x Hx. apply elem_of_dom.
  apply elem_of_union in Hx as [[Hx|Hx]%elem_of_union|Hx];
    apply elem_of_singleton in Hx; subst x; eauto.
Qed.

Lemma parse_truthy header parts :
  Webhook.parse_signature_header header = Return parts -> truthy header = true.
Proof.
  unfold Webhook.parse_signature_header.
  destruct (truthy header); [auto | discriminate].
Qed.

Lemma getitem_Some {M : Type} (parts : gmap pystr pystr) k v :
  parts !! k = Some v -> @getitem M parts k = Return v.
Proof. intros H. unfold getitem. now rewrite H. Qed.

(** ** What is signed *)

Lemma encode_prefix t tb :
  utf8_encode t = Some tb -> utf8_encode (t ++ str ".") = Some (tb ++ [x2e]).
Proof.
  intros Ht. rewrite utf8_encode_app, Ht.
  change (utf8_encode (str ".")) with (Some [x2e]). reflexivity.
Qed.

Lemma encode_signed t tb raw_body body :
  utf8_encode t = Some tb -> utf8_decode raw_body = Some body ->
  utf8_encode (t ++ str "." ++ body) = Some (tb ++ x2e :: raw_body).
Proof.
  intros Ht Hb.
  rewrite !utf8_encode_app, Ht, (utf8_encode_decode _ _ Hb).
  change (utf8_encode (str ".")) with (Some [x2e]). reflexivity.
Qed.

Lemma format_int_encode z :
  utf8_encode (format_int z) = Some (map byte_of_N (format_int z)).
Proof. apply utf8_encode_ascii, token_is_ascii, format_int_token. Qed.

Lemma format_int_truthy z : truthy (format_int z) = true.
Proof.
  pose proof (to_int_nonnil z) as Hn. unfold format_int.
  destruct (Z.to_int z) as [u|u]; [|reflexivity].
  destruct u; [congruence|reflexivity..].
Qed.

(** ** The header written by [generate_signature] *)

Lemma wire_header_split t sig kid :
  forallb token_char t = true -> forallb token_char sig = true ->
  no_comma kid = true ->
  split 44 (wire_header t sig kid)
  = [str "t=" ++ t; str "v1=" ++ sig; str "kid=" ++ kid].
Proof.
  intros Ht Hs Hk. unfold wire_header.
  change (str ",v1=") with (44%N :: str "v1=").
  change (str ",kid=") with (44%N :: str "kid=").
  rewrite app_assoc. cbn [app]. rewrite split_app_sep.
  2:{ rewrite forallb_app. now rewrite (token_no_comma _ Ht). }
  f_equal. rewrite app_assoc. rewrite split_app_sep.
  2:{ rewrite forallb_app. now rewrite (token_no_comma _ Hs). }
  f_equal. apply split_no_sep. rewrite forallb_app.
  unfold no_comma in Hk. now rewrite Hk.
Qed.

Lemma wire_header_parse_105 t sig kid :
  forallb token_char t = true -> forallb token_char sig = true ->
  no_comma kid = true ->
  Webhook.parse_signature_header (wire_header t sig kid)
  = Return (<[str "kid" := strip kid]>
              (<[str "v1" := sig]> (<[str "t" := t]> empty))).
Proof.
  intros Ht Hs Hk. unfold Webhook.parse_signature_header.
  rewrite wire_header_split by assumption.
  change (truthy (wire_header t sig kid)) with true.
  eval_str. cbn -[strip].
  change (strip [116%N]) with [116%N].
  change (strip [118%N; 49%N]) with [118%N; 49%N].
  change (strip [107%N; 105%N; 100%N]) with [107%N; 105%N; 100%N].
  now rewrite (token_strip _ Ht), (token_strip _ Hs).
Qed.

Lemma wire_header_parse_102 t sig kid :
  forallb token_char t = true -> forallb token_char sig = true ->
  no_comma kid = true ->
  Webhooks.parse_parts (split 44 (wire_header t sig kid)) empty
  = Return (<[str "kid" := kid]> (<[str "v1" := sig]> (<[str "t" := t]> empty))).
Proof.
  intros Ht Hs Hk. rewrite wire_header_split by assumption.
  eval_str. reflexivity.
Qed.

Lemma lookup_wire_t (t sig kid : pystr) :
  (<[str "kid" := kid]> (<[str "v1" := sig]> (<[str "t" := t]> empty))
     : gmap pystr pystr) !! str "t" = Some t.
Proof. rewrite !lookup_insert_ne by discriminate. apply lookup_insert_eq. Qed.

Lemma lookup_wire_v1 (t sig kid : pystr) :
  (<[str "kid" := kid]> (<[str "v1" := sig]> (<[str "t" := t]> empty))
     : gmap pystr pystr) !! str "v1" = Some sig.
Proof. rewrite lookup_insert_ne by discriminate. apply lookup_insert_eq. Qed.

Lemma lookup_wire_kid (t sig kid : pystr) :
  (<[str "kid" := kid]> (<[str "v1" := sig]> (<[str "t" := t]> empty))
     : gmap pystr pystr) !! str "kid" = Some kid.
Proof. apply lookup_insert_eq. Qed.

Section Verifiers.
Variable hmac_sha256 : bytes -> bytes -> bytes.
Variable todecimal : N -> option N.

(** [verify_molam_signature] after the header, the timestamp and the window
    have been accepted: what remains is the secret and the digest. *)
Lemma verify_102_in_window header payload get_secret tolerance_seconds now_ms
    t sig kid ts :
  well_formed_102 todecimal header t sig kid ts ->
  (Z.abs (now_ms - ts) <= tolerance_seconds * 1000)%Z ->
  Webhooks.verify_molam_signature hmac_sha256 todecimal
    header payload get_secret tolerance_seconds now_ms
  = (raise_if (negb (truthy_opt (get_secret kid)))
       (SdkError (Webhooks.Unknown_key_id kid)) ;;
     prefix <- try_or (utf8_encode (t ++ str ".")) UnicodeEncodeError ;;
     key <- try_or (utf8_encode (default [] (get_secret kid)))
              UnicodeEncodeError ;;
     equal <- try_or (compare_digest
                        (hexlify (hmac_sha256 key (prefix ++ payload))) sig)
                TypeError ;;
     raise_if (negb equal) (SdkError Webhooks.Signature_mismatch) ;;
     Return true).
Proof.
  intros (Hh & parts & Hp & Ht & Hs & Hk & Htt & Hst & Hi) Htol.
  unfold Webhooks.verify_molam_signature.
  rewrite Hh. exec. rewrite Hp. exec. rewrite Ht, Hs. exec.
  rewrite Htt, Hst. exec. rewrite Hi. exec.
  destruct (Z.gtb_spec (Z.abs (now_ms - ts)) (tolerance_seconds * 1000));
    [lia|].
  exec. now rewrite Hk.
Qed.

(** The same for [verify_signature] of brique-105. *)
Lemma verify_105_in_window header raw_body get_secret tolerance_ms now_ms
    t sig kid ts :
  well_formed_105 todecimal header t sig kid ts ->
  (Z.abs (now_ms - ts) <= tolerance_ms)%Z ->
  Webhook.verify_signature hmac_sha256 todecimal
    header raw_body get_secret tolerance_ms now_ms
  = (raise_if (negb (truthy_opt (get_secret kid)))
       (SdkError (Webhook.Secret_not_found kid)) ;;
     body <- try_or (utf8_decode raw_body) UnicodeDecodeError ;;
     key <- try_or (utf8_encode (default [] (get_secret kid)))
              UnicodeEncodeError ;;
     message_bytes <- try_or (utf8_encode (t ++ str "." ++ body))
                        UnicodeEncodeError ;;
     equal <- try_or (compare_digest
                        (hexlify (hmac_sha256 key message_bytes)) sig)
                TypeError ;;
     raise_if (negb equal) (SdkError Webhook.Signature_mismatch) ;;
     Return true).
Proof.
  intros (parts & Hp & Ht & Hs & Hk & Hi) Htol.
  unfold Webhook.verify_signature.
  rewrite (parse_truthy _ _ Hp). exec. rewrite Hp. exec.
  rewrite (required_present _ _ _ _ Ht Hs Hk). exec.
  rewrite !(getitem_Some _ _ _ Ht), (getitem_Some _ _ _ Hs),
    (getitem_Some _ _ _ Hk).
  exec. rewrite Hi. exec.
  destruct (Z.gtb_spec (Z.abs (now_ms - ts)) tolerance_ms); [lia|].
  reflexivity.
Qed.

Lemma window_102 header payload get_secret tolerance_seconds now_ms t sig kid ts :
  well_formed_102 todecimal header t sig kid ts ->
  failure Webhooks.reason_of
    (Webhooks.verify_molam_signature hmac_sha256 todecimal
       header payload get_secret tolerance_seconds now_ms)
  = Some TimestampOutOfTolerance
  <-> (Z.abs (now_ms - ts) > tolerance_seconds * 1000)%Z.
Proof.
  intros Hwf.
  destruct (Z.gtb_spec (Z.abs (now_ms - ts)) (tolerance_seconds * 1000))
    as [Hgt|Hle].
  - split; [lia|intros _].
    destruct Hwf as (Hh & parts & Hp & Ht & Hs & Hk & Htt & Hst & Hi).
    unfold Webhooks.verify_molam_signature.
    rewrite Hh. exec. rewrite Hp. exec. rewrite Ht, Hs. exec.
    rewrite Htt, Hst. exec. rewrite Hi. exec.
    destruct (Z.gtb_spec (Z.abs (now_ms - ts)) (tolerance_seconds * 1000));
      [reflexivity|lia].
  - split; [|lia]. rewrite (verify_102_in_window _ _ _ _ _ _ _ _ _ Hwf Hle).
    intros H. exfalso. unfold bind, raise_if, try_or in H.
    repeat case_match; simplify_eq; cbn in H; congruence.
Qed.

Lemma window_105 header raw_body get_secret tolerance_ms now_ms t sig kid ts :
  well_formed_105 todecimal header t sig kid ts ->
  failure Webhook.reason_of
    (Webhook.verify_signature hmac_sha256 todecimal
       header raw_body get_secret tolerance_ms now_ms)
  = Some TimestampOutOfTolerance
  <-> (Z.abs (now_ms - ts) > tolerance_ms)%Z.
Proof.
  intros Hwf.
  destruct (Z.gtb_spec (Z.abs (now_ms - ts)) tolerance_ms) as [Hgt|Hle].
  - split; [lia|intros _].
    destruct Hwf as (parts & Hp & Ht & Hs & Hk & Hi).
    unfold Webhook.verify_signature.
    rewrite (parse_truthy _ _ Hp). exec. rewrite Hp. exec.
    rewrite (required_present _ _ _ _ Ht Hs Hk). exec.
    rewrite !(getitem_Some _ _ _ Ht), (getitem_Some _ _ _ Hs),
      (getitem_Some _ _ _ Hk).
    exec. rewrite Hi. exec.
    destruct (Z.gtb_spec (Z.abs (now_ms - ts)) tolerance_ms);
      [reflexivity|lia].
  - split; [|lia]. rewrite (verify_105_in_window _ _ _ _ _ _ _ _ _ Hwf Hle).
    intros H. exfalso. unfold bind, raise_if, try_or in H.
    repeat case_match; simplify_eq; cbn in H; congruence.
Qed.

(** [generate_signature] returns a header whenever the payload is valid
    UTF-8 and the secret can be encoded. *)
Lemma generate_signature_returns payload body secret key timestamp_ms kid now_ms :
  utf8_decode payload = Some body -> utf8_encode secret = Some key ->
  let ts := default now_ms timestamp_ms in
  Webhook.generate_signature hmac_sha256 payload secret timestamp_ms kid now_ms
  = Return (wire_header (format_int ts)
              (hexlify (hmac_sha256 key
                 (map byte_of_N (format_int ts) ++ x2e :: payload)))
              kid).
Proof.
  intros Hb Hk ts. unfold Webhook.generate_signature. fold ts.
  rewrite Hb. exec. rewrite Hk. exec.
  rewrite (encode_signed _ _ _ _ (format_int_encode ts) Hb). reflexivity.
Qed.

Lemma wire_header_well_formed_105 ts sig kid :
  forallb token_char sig = true -> no_comma kid = true -> strip kid = kid ->
  well_formed_105 todecimal (wire_header (format_int ts) sig kid)
    (format_int ts) sig kid ts.
Proof.
  intros Hs Hc Hk. eexists. split.
  - apply wire_header_parse_105; auto using format_int_token.
  - rewrite Hk, lookup_wire_t, lookup_wire_v1, lookup_wire_kid.
    repeat split; auto using int_format_int.
Qed.

Lemma wire_header_well_formed_102 ts sig kid :
  forallb token_char sig = true -> no_comma kid = true -> truthy sig = true ->
  well_formed_102 todecimal (wire_header (format_int ts) sig kid)
    (format_int ts) sig kid ts.
Proof.
  intros Hs Hc Hne. split; [reflexivity|]. eexists. split.
  - apply wire_header_parse_102; auto using format_int_token.
  - rewrite lookup_wire_t, lookup_wire_v1, lookup_wire_kid.
    cbn [default from_option id].
    repeat split; auto using int_format_int, format_int_truthy.
Qed.

(** A header signed over [str(ts) + "." + body] with the secret that the
    resolver returns for its key id verifies, inside the tolerance window. *)
Lemma verify_signed_header raw_body body secret key ts kid get_secret tol now_ms :
  utf8_decode raw_body = Some body -> utf8_encode secret = Some key ->
  truthy secret = true -> no_comma kid = true -> strip kid = kid ->
  get_secret kid = Some secret ->
  (Z.abs (now_ms - ts) <= tol)%Z ->
  Webhook.verify_signature hmac_sha256 todecimal
    (wire_header (format_int ts)
       (hexlify (hmac_sha256 key
          (map byte_of_N (format_int ts) ++ x2e :: raw_body)))
       kid)
    raw_body get_secret tol now_ms
  = Return true.
Proof.
  intros Hb Hk Hs Hc Hstrip Hget Htol.
  set (sig := hexlify _).
  assert (Hsig : forallb token_char sig = true) by apply hexlify_token.
  rewrite (verify_105_in_window _ _ _ _ _ (format_int ts) sig kid ts);
    [| now apply wire_header_well_formed_105 | exact Htol].
  rewrite Hget. cbn [truthy_opt]. rewrite Hs. exec.
  rewrite Hb. exec. rewrite Hk. exec.
  rewrite (encode_signed _ _ _ _ (format_int_encode ts) Hb). exec.
  fold sig. rewrite compare_digest_refl by now apply token_is_ascii.
  reflexivity.
Qed.

(** The same header verifies in brique-102, for any payload bytes, when the
    digest is not empty. *)
Lemma verify_molam_signed_header payload secret key ts kid get_secret tol now_ms :
  utf8_encode secret = Some key -> truthy secret = true ->
  no_comma kid = true -> get_secret kid = Some secret ->
  (Z.abs (now_ms - ts) <= tol * 1000)%Z ->
  hmac_sha256 key (map byte_of_N (format_int ts) ++ x2e :: payload) <> [] ->
  Webhooks.verify_molam_signature hmac_sha256 todecimal
    (wire_header (format_int ts)
       (hexlify (hmac_sha256 key
          (map byte_of_N (format_int ts) ++ x2e :: payload)))
       kid)
    payload get_secret tol now_ms
  = Return true.
Proof.
  intros Hk Hs Hc Hget Htol Hne.
  set (sig := hexlify _).
  assert (Hsig : forallb token_char sig = true) by apply hexlify_token.
  assert (Hsome : truthy sig = true).
  { subst sig. destruct (hmac_sha256 key _); [congruence|reflexivity]. }
  rewrite (verify_102_in_window _ _ _ _ _ (format_int ts) sig kid ts);
    [| now apply wire_header_well_formed_102 | exact Htol].
  rewrite Hget. cbn [truthy_opt]. rewrite Hs. exec.
  rewrite (encode_prefix _ _ (format_int_encode ts)). exec.
  rewrite Hk. exec. rewrite <- app_assoc. cbn [app].
  fold sig. rewrite compare_digest_refl by now apply token_is_ascii.
  reflexivity.
Qed.
End Verifiers.
End VerifyFacts.

(** * The claims *)
Module Claims.
Import Py Spec ParseFacts PyFacts VerifyFacts.

(** ** C1: the signed bytes *)

(** C1.  The three verifiers do not sign the same bytes.  For the body
    [b"\xff"] and a header signed over [b"1000." + b"\xff"],
    [verify_molam_signature] returns [True] while [verify_signature] of
    brique-105 raises [UnicodeDecodeError] before any digest is computed;
    for the timestamp text ["007"] and a header signed over [b"007.x"],
    [verify_molam_signature] returns [True] while the example handler,
    which signs [b"7.x"], returns [False]. *)
Theorem signed_bytes_differ :
  let header :=
    str "t=1000,v1=200c3d2b26d75dd1b88357a11ea9ddfc3621423f31518e791964b9e9c580dd9a,kid=1" in
  let header' :=
    str "t=007,v1=10fa52e989b1af426ff46e38912f2e7d7562f6287fdf789e54850a523162d52e,kid=1" in
  let get_secret := Sample.one_secret (str "1") (str "s") in
  Webhooks.verify_molam_signature Sample.hmac Sample.digits
    header [xff] get_secret 300 1000
  = Return true /\
  Webhook.verify_signature Sample.hmac Sample.digits
    header [xff] get_secret 300000 1000
  = Raise UnicodeDecodeError /\
  Webhooks.verify_molam_signature Sample.hmac Sample.digits
    header' (Hashlib.b "x") get_secret 300 7
  = Return true /\
  WebhookHandler.verify_signature Sample.hmac Sample.digits
    (Hashlib.b "x") header' (str "s") 7
  = Return false.
Proof. run. Qed.

(** ** C2: the tolerance window *)

Section Tolerance.
Variable hmac_sha256 : bytes -> bytes -> bytes.
Variable todecimal : N -> option N.

End Tolerance.


(** ** C3, C4, C5: key ids, rotation and the round trip *)

(** C3 as stated fails in brique-105: a header with [t] and [v1] and no
    [kid] is refused as malformed. *)
Lemma kid_is_required_in_brique_105 :
  Webhook.verify_signature Sample.hmac Sample.digits (str "t=1000,v1=abc") []
    (Sample.one_secret (str "v1") (str "s")) 300000 1000
  = Raise (SdkError (Webhook.Missing_required_fields {[ str "kid" ]})).
Proof. run. Qed.

Section KeyId.
Variable hmac_sha256 : bytes -> bytes -> bytes.
Variable todecimal : N -> option N.

(** C3, as amended.  In [verify_molam_signature] a header with [t] and [v1]
    and without [kid] is not refused as malformed: the key id is ["v1"], only
    the secret that the resolver returns for ["v1"] matters, and when there
    is none the error names ["v1"].  [verify_signature] of brique-105
    requires [kid]: it refuses such a header with "Missing required
    fields", and [kid] is among the fields it reports.  The example handler
    reads [t] and [v1] only: two headers that agree on them get the same
    answer, whether [kid] is present or not. *)
Theorem kid_default :
  (forall header payload get_secret tolerance_seconds now_ms t sig,
     omits_kid_102 header t sig ->
     let verify := Webhooks.verify_molam_signature hmac_sha256 todecimal
                     header payload in
     verify get_secret tolerance_seconds now_ms
     = verify (fun _ => get_secret (str "v1")) tolerance_seconds now_ms
     /\ failure Webhooks.reason_of (verify get_secret tolerance_seconds now_ms)
        <> Some MalformedHeader
     /\ (forall ts, int todecimal t = Some ts ->
           (Z.abs (now_ms - ts) <= tolerance_seconds * 1000)%Z ->
           truthy_opt (get_secret (str "v1")) = false ->
           verify get_secret tolerance_seconds now_ms
           = Raise (SdkError (Webhooks.Unknown_key_id (str "v1"))))) /\
  (forall header raw_body get_secret tolerance_ms now_ms,
     omits_kid_105 header ->
     exists missing,
       Webhook.verify_signature hmac_sha256 todecimal
         header raw_body get_secret tolerance_ms now_ms
       = Raise (SdkError (Webhook.Missing_required_fields missing))
       /\ str "kid" ∈ missing) /\
  (forall payload header header' secret now_ms parts parts',
     WebhookHandler.dict_of_parts (split 44 header) empty = Return parts ->
     WebhookHandler.dict_of_parts (split 44 header') empty = Return parts' ->
     parts !! str "t" = parts' !! str "t" ->
     parts !! str "v1" = parts' !! str "v1" ->
     WebhookHandler.verify_signature hmac_sha256 todecimal
       payload header secret now_ms
     = WebhookHandler.verify_signature hmac_sha256 todecimal
         payload header' secret now_ms).
Proof.
  split; [|split].
  - intros header payload get_secret tol now t sig
      (Hh & parts & Hp & Ht & Hs & Hk & Htt & Hst) verify.
    subst verify. unfold Webhooks.verify_molam_signature.
    rewrite Hh. exec. rewrite Hp. exec. rewrite Ht, Hs, Hk. exec.
    rewrite Htt, Hst. exec.
    split; [reflexivity|]. split.
    + unfold bind, raise_if, try_or.
      repeat case_match; simplify_eq; cbn; congruence.
    + intros ts Hi Htol Hnone. rewrite Hi. exec.
      destruct (Z.gtb_spec (Z.abs (now - ts)) (tol * 1000)); [lia|].
      exec. now rewrite Hnone.
  - intros header raw_body get_secret tol now (parts & Hp & Hk).
    exists (Webhook.required_fields ∖ dom parts).
    assert (Hin : str "kid" ∈ Webhook.required_fields ∖ dom parts).
    { apply elem_of_difference. split.
      - unfold Webhook.required_fields. set_solver.
      - now apply not_elem_of_dom. }
    split; [|exact Hin].
    unfold Webhook.verify_signature.
    rewrite (parse_truthy _ _ Hp). exec. rewrite Hp. exec.
    rewrite bool_decide_eq_false_2; [reflexivity|].
    intros Hsub. apply elem_of_difference in Hin as [Hreq Hdom].
    apply Hdom, Hsub, Hreq.
  - intros payload header header' secret now parts parts' Hp Hp' Ht Hv.
    unfold WebhookHandler.verify_signature, getitem.
    rewrite Hp, Hp'. cbn [bind]. now rewrite Ht, Hv.
Qed.

(** C4, as amended.  Rotation: two non-empty secrets that can be encoded,
    under key ids free of commas and of surrounding blanks, each sign a
    UTF-8 payload with [generate_signature] so that [verify_signature]
    returns [True] when the resolver maps each key id to its secret.  And a
    well-formed header inside the tolerance window whose key id the
    resolver maps to nothing ([None] or the empty string) is refused with
    the unknown-key error, in brique-102 and brique-105 alike, never with a
    signature mismatch. *)
Theorem key_rotation :
  (forall payload body secret1 key1 kid1 secret2 key2 kid2 ts
          get_secret tolerance_ms now_ms,
     utf8_decode payload = Some body ->
     utf8_encode secret1 = Some key1 -> utf8_encode secret2 = Some key2 ->
     truthy secret1 = true -> truthy secret2 = true ->
     no_comma kid1 = true -> no_comma kid2 = true ->
     strip kid1 = kid1 -> strip kid2 = kid2 ->
     get_secret kid1 = Some secret1 -> get_secret kid2 = Some secret2 ->
     (Z.abs (now_ms - ts) <= tolerance_ms)%Z ->
     exists header1 header2,
       Webhook.generate_signature hmac_sha256 payload secret1 (Some ts)
         kid1 now_ms = Return header1 /\
       Webhook.generate_signature hmac_sha256 payload secret2 (Some ts)
         kid2 now_ms = Return header2 /\
       Webhook.verify_signature hmac_sha256 todecimal header1 payload
         get_secret tolerance_ms now_ms = Return true /\
       Webhook.verify_signature hmac_sha256 todecimal header2 payload
         get_secret tolerance_ms now_ms = Return true) /\
  (forall header payload get_secret tolerance_seconds now_ms t sig kid ts,
     well_formed_102 todecimal header t sig kid ts ->
     (Z.abs (now_ms - ts) <= tolerance_seconds * 1000)%Z ->
     truthy_opt (get_secret kid) = false ->
     Webhooks.verify_molam_signature hmac_sha256 todecimal
       header payload get_secret tolerance_seconds now_ms
     = Raise (SdkError (Webhooks.Unknown_key_id kid))) /\
  (forall header raw_body get_secret tolerance_ms now_ms t sig kid ts,
     well_formed_105 todecimal header t sig kid ts ->
     (Z.abs (now_ms - ts) <= tolerance_ms)%Z ->
     truthy_opt (get_secret kid) = false ->
     Webhook.verify_signature hmac_sha256 todecimal
       header raw_body get_secret tolerance_ms now_ms
     = Raise (SdkError (Webhook.Secret_not_found kid))).
Proof.
  split; [|split].
  - intros payload body secret1 key1 kid1 secret2 key2 kid2 ts get_secret
      tol now Hb He1 He2 Hs1 Hs2 Hc1 Hc2 Hk1 Hk2 Hg1 Hg2 Htol.
    eexists _, _.
    rewrite (generate_signature_returns _ _ _ _ _ (Some ts) kid1 now Hb He1).
    rewrite (generate_signature_returns _ _ _ _ _ (Some ts) kid2 now Hb He2).
    cbn [default from_option id]. split; [reflexivity|]. split; [reflexivity|].
    split; eapply verify_signed_header; eassumption.
  - intros header payload get_secret tol now t sig kid ts Hwf Htol Hnone.
    rewrite (verify_102_in_window _ _ _ _ _ _ _ _ _ _ _ Hwf Htol), Hnone.
    reflexivity.
  - intros header raw_body get_secret tol now t sig kid ts Hwf Htol Hnone.
    rewrite (verify_105_in_window _ _ _ _ _ _ _ _ _ _ _ Hwf Htol), Hnone.
    reflexivity.
Qed.

(** C5, as amended.  Round trip: for a non-empty secret that can be encoded,
    any timestamp, a payload that is valid UTF-8 and a key id free of commas
    and of surrounding blanks, [generate_signature] returns a header, and
    [verify_signature] returns [True] for that header and payload when the
    resolver returns the secret for the key id and the clock is within the
    tolerance of the timestamp. *)
Theorem round_trip :
  forall payload body secret key kid ts get_secret tolerance_ms now_gen now_ms,
    utf8_decode payload = Some body -> utf8_encode secret = Some key ->
    truthy secret = true -> no_comma kid = true -> strip kid = kid ->
    get_secret kid = Some secret ->
    (Z.abs (now_ms - ts) <= tolerance_ms)%Z ->
    exists header,
      Webhook.generate_signature hmac_sha256 payload secret (Some ts)
        kid now_gen = Return header /\
      Webhook.verify_signature hmac_sha256 todecimal header payload
        get_secret tolerance_ms now_ms = Return true.
Proof.
  intros payload body secret key kid ts get_secret tol now_gen now
    Hb He Hs Hc Hk Hg Htol.
  eexists.
  rewrite (generate_signature_returns _ _ _ _ _ (Some ts) kid now_gen Hb He).
  split; [reflexivity|]. cbn [default from_option id].
  eapply verify_signed_header; eassumption.
Qed.
End KeyId.

(** C3, witness: the header [t=1000,v1=abc], without [kid]. *)
Lemma kid_default_witness :
  Webhooks.verify_molam_signature Sample.hmac Sample.digits
    (str "t=1000,v1=abc") [] (fun _ => None) 300 1000
  = Raise (SdkError (Webhooks.Unknown_key_id (str "v1"))) /\
  (exists missing,
     Webhook.verify_signature Sample.hmac Sample.digits
       (str "t=1000,v1=abc") [] (fun _ => None) 300000 1000
     = Raise (SdkError (Webhook.Missing_required_fields missing))
     /\ str "kid" ∈ missing) /\
  WebhookHandler.verify_signature Sample.hmac Sample.digits
    [] (str "t=1000,v1=abc") (str "s") 1000
  = WebhookHandler.verify_signature Sample.hmac Sample.digits
      [] (str "t=1000,v1=abc,kid=7") (str "s") 1000.
Proof.
  destruct (kid_default Sample.hmac Sample.digits) as (H102 & H105 & Hh).
  split; [|split].
  - refine (proj2 (proj2 (H102 (str "t=1000,v1=abc") [] (fun _ => None)
                            300%Z 1000%Z (str "1000") (str "abc") _))
              1000%Z _ _ _); [|run|lia|reflexivity].
    split; [reflexivity|].
    exists (<[str "v1" := str "abc"]> (<[str "t" := str "1000"]> empty)). run.
  - apply H105.
    exists (<[str "v1" := str "abc"]> (<[str "t" := str "1000"]> empty)). run.
  - apply (Hh [] (str "t=1000,v1=abc") (str "t=1000,v1=abc,kid=7") (str "s")
             1000%Z
             (<[str "v1" := str "abc"]> (<[str "t" := str "1000"]> empty))
             (<[str "kid" := str "7"]>
                (<[str "v1" := str "abc"]> (<[str "t" := str "1000"]> empty))));
      vm_compute; reflexivity.
Defined.

(** C4 as stated fails for an empty secret: registered under key id ["1"]
    next to another secret under ["2"], it signs a header that is refused
    as an unknown key. *)
Lemma empty_secret_is_not_rotated :
  let get_secret :=
    Sample.two_secrets (str "1") [] (str "2") (str "whsec_new") in
  let header :=
    str "t=1000,v1=a27a63bc7cdc6a967b1109f1f641524c330f061e4b670d6aea80c9ad2413ab13,kid=1" in
  Webhook.generate_signature Sample.hmac (Hashlib.b "{}") []
    (Some 1000%Z) (str "1") 1000
  = Return header /\
  Webhook.verify_signature Sample.hmac Sample.digits header (Hashlib.b "{}")
    get_secret 300000 1000
  = Raise (SdkError (Webhook.Secret_not_found (str "1"))).
Proof. run. Qed.

(** C4, witness: the secrets [whsec_old] under key id 1 and [whsec_new]
    under key id 2, and a header naming the unregistered key id 3. *)
Lemma key_rotation_witness :
  let get_secret :=
    Sample.two_secrets (str "1") (str "whsec_old") (str "2") (str "whsec_new") in
  (exists header1 header2,
     Webhook.generate_signature Sample.hmac (Hashlib.b "{}")
       (str "whsec_old") (Some 1000%Z) (str "1") 1000 = Return header1 /\
     Webhook.generate_signature Sample.hmac (Hashlib.b "{}")
       (str "whsec_new") (Some 1000%Z) (str "2") 1000 = Return header2 /\
     Webhook.verify_signature Sample.hmac Sample.digits
       header1 (Hashlib.b "{}") get_secret 300000 1000 = Return true /\
     Webhook.verify_signature Sample.hmac Sample.digits
       header2 (Hashlib.b "{}") get_secret 300000 1000 = Return true) /\
  Webhooks.verify_molam_signature Sample.hmac Sample.digits
    (str "t=1000,v1=abc,kid=3") [] (fun _ => None) 300 1000
  = Raise (SdkError (Webhooks.Unknown_key_id (str "3"))) /\
  Webhook.verify_signature Sample.hmac Sample.digits
    (str "t=1000,v1=abc,kid=3") [] (fun _ => None) 300000 1000
  = Raise (SdkError (Webhook.Secret_not_found (str "3"))).
Proof.
  cbv zeta.
  destruct (key_rotation Sample.hmac Sample.digits)
    as (Hrot & H102 & H105).
  split; [|split].
  - apply (Hrot (Hashlib.b "{}") (str "{}")
             (str "whsec_old") (Hashlib.b "whsec_old") (str "1")
             (str "whsec_new") (Hashlib.b "whsec_new") (str "2"));
      try (vm_compute; reflexivity). lia.
  - apply (H102 _ _ _ _ _ (str "1000") (str "abc") (str "3") 1000%Z);
      [|lia|reflexivity].
    split; [reflexivity|].
    exists (<[str "kid" := str "3"]>
              (<[str "v1" := str "abc"]> (<[str "t" := str "1000"]> empty))).
    run.
  - apply (H105 _ _ _ _ _ (str "1000") (str "abc") (str "3") 1000%Z);
      [|lia|reflexivity].
    exists (<[str "kid" := str "3"]>
              (<[str "v1" := str "abc"]> (<[str "t" := str "1000"]> empty))).
    run.
Defined.

(** C5 as stated fails for the empty secret: the header that
    [generate_signature] builds with it is refused although the resolver
    returns that same secret. *)
Lemma empty_secret_round_trip_fails :
  let header :=
    str "t=1000,v1=a27a63bc7cdc6a967b1109f1f641524c330f061e4b670d6aea80c9ad2413ab13,kid=1" in
  Webhook.generate_signature Sample.hmac (Hashlib.b "{}") []
    (Some 1000%Z) (str "1") 0
  = Return header /\
  Webhook.verify_signature Sample.hmac Sample.digits header (Hashlib.b "{}")
    (fun _ => Some []) 300000 1000
  = Raise (SdkError (Webhook.Secret_not_found (str "1"))).
Proof. run. Qed.

(** C5, witness: the secret of the test suite, read at the edge of the
    window. *)
Lemma round_trip_witness :
  exists header,
    Webhook.generate_signature Sample.hmac (Hashlib.b "{}")
      (str "whsec_test_secret_123") (Some 1700000000000%Z) (str "v1") 0
    = Return header /\
    Webhook.verify_signature Sample.hmac Sample.digits
      header (Hashlib.b "{}")
      (Sample.one_secret (str "v1") (str "whsec_test_secret_123"))
      300000 1700000300000
    = Return true.
Proof.
  apply (round_trip Sample.hmac Sample.digits
           (Hashlib.b "{}") (str "{}") (str "whsec_test_secret_123")
           (Hashlib.b "whsec_test_secret_123") (str "v1"));
    try (vm_compute; reflexivity). lia.
Defined.

(** ** C6, C9: idempotency keys *)

Lemma hexlify_hex b : forallb is_hex (hexlify b) = true.
Proof.
  induction b as [|x b IH]; cbn [hexlify forallb]; [reflexivity|].
  pose proof (to_N_lt x) as Hx. rewrite IH, !andb_true_r.
  assert (Hh : forall n, (n < 16)%N -> is_hex (hex_char n) = true).
  { intros n Hn. unfold is_hex, is_digit, hex_char.
    destruct (N.ltb_spec n 10);
      repeat match goal with
      | |- context [(?a <=? ?b)%N] => destruct (N.leb_spec a b); try lia
      end; reflexivity. }
  rewrite !Hh; [reflexivity | ndiv | ndiv].
Qed.




(** C9.  The empty string is treated as no key: a fresh key is generated
    exactly as for [None], and no input makes [make_idempotency_key] return
    the empty string. *)
Theorem empty_key_is_absent :
  (forall now_ms random_bytes,
     Idempotency.make_idempotency_key (Some []) now_ms random_bytes
     = Idempotency.make_idempotency_key None now_ms random_bytes
     /\ Idempotency.make_idempotency_key (Some []) now_ms random_bytes
        = Return (str "molam-" ++ format_int now_ms ++ str "-"
                  ++ hexlify random_bytes)) /\
  (forall provided now_ms random_bytes,
     Idempotency.make_idempotency_key provided now_ms random_bytes
     <> Return []).
Proof.
  unfold Idempotency.make_idempotency_key, Idempotency.token_hex. split.
  - intros now rnd. split; reflexivity.
  - intros [[|c p]|] now rnd; cbn [truthy_opt truthy default from_option id];
      try discriminate.
    destruct (128 <? length (c :: p))%nat; discriminate.
Qed.

(** ** C7: how failure is reported *)


Section Outcomes.
Variable hmac_sha256 : bytes -> bytes -> bytes.
Variable todecimal : N -> option N.

End Outcomes.


(** ** C10: repeated keys in the header *)


(** A header with two [t] parts: the second one is verified. *)
Example duplicate_timestamp :
  Webhooks.verify_molam_signature Sample.hmac Sample.digits
    (str "t=5,t=1000,v1=200c3d2b26d75dd1b88357a11ea9ddfc3621423f31518e791964b9e9c580dd9a,kid=1")
    [xff] (Sample.one_secret (str "1") (str "s")) 300 1000
  = Return true.
Proof. run. Qed.

(** ** Further properties of the verifiers *)

Section Canonical.
Variable hmac_sha256 : bytes -> bytes -> bytes.
Variable todecimal : N -> option N.

(** X1.  [verify_molam_signature] signs the raw bytes: for a well-formed
    header inside the window, a known non-empty secret and an ASCII digest,
    it returns [True] exactly when the digest is the hex HMAC of the
    timestamp text as received, a period and the untouched payload, and
    otherwise raises the signature-mismatch error; this holds for every
    payload, valid UTF-8 or not. *)
Theorem molam_signature_signs_raw_bytes :
  forall header payload get_secret tolerance_seconds now_ms
         t sig kid ts secret key tb,
    well_formed_102 todecimal header t sig kid ts ->
    (Z.abs (now_ms - ts) <= tolerance_seconds * 1000)%Z ->
    get_secret kid = Some secret -> truthy secret = true ->
    utf8_encode secret = Some key -> utf8_encode t = Some tb ->
    is_ascii sig = true ->
    let o := Webhooks.verify_molam_signature hmac_sha256 todecimal
               header payload get_secret tolerance_seconds now_ms in
    (o = Return true
     <-> sig = hexlify (hmac_sha256 key (tb ++ x2e :: payload)))
    /\ (o = Return true \/ o = Raise (SdkError Webhooks.Signature_mismatch)).
Proof.
  intros header payload get_secret tol now t sig kid ts secret key tb
    Hwf Htol Hg Hsec Hkey Htb Ha o.
  subst o. rewrite (verify_102_in_window _ _ _ _ _ _ _ _ _ _ _ Hwf Htol), Hg.
  cbn [truthy_opt]. rewrite Hsec. exec.
  rewrite (encode_prefix _ _ Htb). exec. rewrite Hkey. exec.
  rewrite <- app_assoc. cbn [app].
  unfold compare_digest.
  rewrite (token_is_ascii _ (hexlify_token _)), Ha. exec.
  case_bool_decide as Heq; exec.
  - split; [split; congruence | now left].
  - split; [split; [discriminate | congruence] | now right].
Qed.

(** X2.  [verify_signature] of brique-105 signs the same bytes when the body
    is valid UTF-8, and raises [UnicodeDecodeError] for any other body once
    the header, the window and the secret have been accepted. *)
Theorem decoded_body_signature :
  forall header raw_body get_secret tolerance_ms now_ms
         t sig kid ts secret key tb,
    well_formed_105 todecimal header t sig kid ts ->
    (Z.abs (now_ms - ts) <= tolerance_ms)%Z ->
    get_secret kid = Some secret -> truthy secret = true ->
    utf8_encode secret = Some key -> utf8_encode t = Some tb ->
    is_ascii sig = true ->
    let o := Webhook.verify_signature hmac_sha256 todecimal
               header raw_body get_secret tolerance_ms now_ms in
    (forall body, utf8_decode raw_body = Some body ->
       (o = Return true
        <-> sig = hexlify (hmac_sha256 key (tb ++ x2e :: raw_body)))
       /\ (o = Return true \/ o = Raise (SdkError Webhook.Signature_mismatch)))
    /\ (utf8_decode raw_body = None -> o = Raise UnicodeDecodeError).
Proof.
  intros header raw_body get_secret tol now t sig kid ts secret key tb
    Hwf Htol Hg Hsec Hkey Htb Ha o.
  subst o. rewrite (verify_105_in_window _ _ _ _ _ _ _ _ _ _ _ Hwf Htol), Hg.
  cbn [truthy_opt]. rewrite Hsec. exec.
  split.
  - intros body Hb. rewrite Hb. exec. rewrite Hkey. exec.
    rewrite (encode_signed _ _ _ _ Htb Hb). exec.
    unfold compare_digest.
    rewrite (token_is_ascii _ (hexlify_token _)), Ha. exec.
    case_bool_decide as Heq; exec.
    + split; [split; congruence | now left].
    + split; [split; [discriminate | congruence] | now right].
  - intros Hb. now rewrite Hb.
Qed.

(** X3.  The packages agree on the wire: a header that [generate_signature]
    of brique-105 builds is accepted by [verify_molam_signature] of
    brique-102, for a key id without commas and a digest that is not empty. *)
Theorem generated_header_verifies_in_brique_102 :
  forall payload body secret key kid ts get_secret tolerance_seconds
         now_gen now_ms,
    utf8_decode payload = Some body -> utf8_encode secret = Some key ->
    truthy secret = true -> no_comma kid = true ->
    get_secret kid = Some secret ->
    (Z.abs (now_ms - ts) <= tolerance_seconds * 1000)%Z ->
    hmac_sha256 key (map byte_of_N (format_int ts) ++ x2e :: payload) <> [] ->
    exists header,
      Webhook.generate_signature hmac_sha256 payload secret (Some ts)
        kid now_gen = Return header /\
      Webhooks.verify_molam_signature hmac_sha256 todecimal header payload
        get_secret tolerance_seconds now_ms = Return true.
Proof.
  intros payload body secret key kid ts get_secret tol now_gen now
    Hb He Hs Hc Hg Htol Hne.
  eexists.
  rewrite (generate_signature_returns _ _ _ _ _ (Some ts) kid now_gen Hb He).
  split; [reflexivity|]. cbn [default from_option id].
  eapply verify_molam_signed_header; eassumption.
Qed.

(** X5.  Future skew: with the default tolerance of five minutes, a
    well-formed header whose timestamp lies ten minutes ahead of the clock is
    refused with [TimestampOutOfTolerance] by both verifiers. *)
Theorem future_skew_rejected :
  (forall header payload get_secret now_ms t sig kid,
     well_formed_102 todecimal header t sig kid (now_ms + 600000) ->
     failure Webhooks.reason_of
       (Webhooks.verify_molam_signature hmac_sha256 todecimal
          header payload get_secret 300 now_ms)
     = Some TimestampOutOfTolerance) /\
  (forall header raw_body get_secret now_ms t sig kid,
     well_formed_105 todecimal header t sig kid (now_ms + 600000) ->
     failure Webhook.reason_of
       (Webhook.verify_signature hmac_sha256 todecimal
          header raw_body get_secret (5 * 60 * 1000) now_ms)
     = Some TimestampOutOfTolerance).
Proof.
  split.
  - intros header payload get_secret now t sig kid Hwf.
    apply (window_102 hmac_sha256 todecimal _ _ _ _ _ _ _ _ _ Hwf). lia.
  - intros header raw_body get_secret now t sig kid Hwf.
    apply (window_105 hmac_sha256 todecimal _ _ _ _ _ _ _ _ _ Hwf). lia.
Qed.
End Canonical.

(** X1, witness: the header signed over [b"1000." + b"\xff"]. *)
Lemma molam_signature_signs_raw_bytes_witness :
  Webhooks.verify_molam_signature Sample.hmac Sample.digits
    (str "t=1000,v1=200c3d2b26d75dd1b88357a11ea9ddfc3621423f31518e791964b9e9c580dd9a,kid=1")
    [xff] (Sample.one_secret (str "1") (str "s")) 300 1000
  = Return true.
Proof.
  refine (proj2 (proj1 (molam_signature_signs_raw_bytes
            Sample.hmac Sample.digits
            (str "t=1000,v1=200c3d2b26d75dd1b88357a11ea9ddfc3621423f31518e791964b9e9c580dd9a,kid=1")
            [xff] (Sample.one_secret (str "1") (str "s")) 300%Z 1000%Z
            (str "1000")
            (str "200c3d2b26d75dd1b88357a11ea9ddfc3621423f31518e791964b9e9c580dd9a")
            (str "1") 1000%Z (str "s") (Hashlib.b "s") (Hashlib.b "1000")
            _ _ _ _ _ _ _)) _);
    [|lia|run..].
  split; [reflexivity|].
  exists (<[str "kid" := str "1"]>
            (<[str "v1" := str "200c3d2b26d75dd1b88357a11ea9ddfc3621423f31518e791964b9e9c580dd9a"]>
               (<[str "t" := str "1000"]> empty))).
  run.
Defined.

(** X2, witness: the same header and the body [b"\xff"] in brique-105. *)
Lemma decoded_body_signature_witness :
  Webhook.verify_signature Sample.hmac Sample.digits
    (str "t=1000,v1=200c3d2b26d75dd1b88357a11ea9ddfc3621423f31518e791964b9e9c580dd9a,kid=1")
    [xff] (Sample.one_secret (str "1") (str "s")) 300000 1000
  = Raise UnicodeDecodeError.
Proof.
  refine (proj2 (decoded_body_signature
            Sample.hmac Sample.digits
            (str "t=1000,v1=200c3d2b26d75dd1b88357a11ea9ddfc3621423f31518e791964b9e9c580dd9a,kid=1")
            [xff] (Sample.one_secret (str "1") (str "s")) 300000%Z 1000%Z
            (str "1000")
            (str "200c3d2b26d75dd1b88357a11ea9ddfc3621423f31518e791964b9e9c580dd9a")
            (str "1") 1000%Z (str "s") (Hashlib.b "s") (Hashlib.b "1000")
            _ _ _ _ _ _ _) _);
    [|lia|run..].
  exists (<[str "kid" := str "1"]>
            (<[str "v1" := str "200c3d2b26d75dd1b88357a11ea9ddfc3621423f31518e791964b9e9c580dd9a"]>
               (<[str "t" := str "1000"]> empty))).
  run.
Defined.

(** X3, witness: the sample event signed by brique-105, verified by
    brique-102. *)
Lemma generated_header_verifies_in_brique_102_witness :
  exists header,
    Webhook.generate_signature Sample.hmac Sample.event_body
      (str "whsec_test_secret_123") (Some 1700000000000%Z) (str "v1") 0
    = Return header /\
    Webhooks.verify_molam_signature Sample.hmac Sample.digits header
      Sample.event_body
      (Sample.one_secret (str "v1") (str "whsec_test_secret_123"))
      300 1700000000000
    = Return true.
Proof.
  apply (generated_header_verifies_in_brique_102 Sample.hmac Sample.digits
           Sample.event_body
           (map (fun x => Byte.to_N x) Sample.event_body)
           (str "whsec_test_secret_123")
           (Hashlib.b "whsec_test_secret_123") (str "v1"));
    try (vm_compute; reflexivity); [lia|].
  vm_compute. discriminate.
Defined.

(** X4.  The scenarios of the test suites: the header generated for the
    sample event verifies with the same secret, fails with the mismatch
    error under another secret, and the text [invalid_format] is a malformed
    header, in brique-105 and in brique-102. *)
Theorem test_suite_scenarios :
  let secret := str "whsec_test_secret_123" in
  let header :=
    str "t=1700000000000,v1=b48966dbf26afec11214176fa6d75f306d349063ab89beb8353161882e9dbb38,kid=v1" in
  Webhook.generate_signature Sample.hmac Sample.event_body secret
    (Some 1700000000000%Z) (str "v1") 0 = Return header /\
  Webhook.verify_signature Sample.hmac Sample.digits header
    Sample.event_body (fun _ => Some secret) 300000 1700000000000
  = Return true /\
  Webhook.verify_signature Sample.hmac Sample.digits header
    Sample.event_body (fun _ => Some (str "wrong_secret")) 300000
    1700000000000
  = Raise (SdkError Webhook.Signature_mismatch) /\
  failure Webhook.reason_of
    (Webhook.verify_signature Sample.hmac Sample.digits
       (str "invalid_format") Sample.event_body (fun _ => Some secret)
       300000 1700000000000)
  = Some MalformedHeader /\
  Webhooks.verify_molam_signature Sample.hmac Sample.digits header
    Sample.event_body (fun _ => Some secret) 300 1700000000000
  = Return true /\
  Webhooks.verify_molam_signature Sample.hmac Sample.digits header
    Sample.event_body (fun _ => Some (str "wrong_secret")) 300 1700000000000
  = Raise (SdkError Webhooks.Signature_mismatch) /\
  failure Webhooks.reason_of
    (Webhooks.verify_molam_signature Sample.hmac Sample.digits
       (str "invalid_format") Sample.event_body (fun _ => Some secret)
       300 1700000000000)
  = Some MalformedHeader.
Proof. run. Qed.

(** X5, witness: a header stamped 601000 read at clock 1000. *)
Lemma future_skew_rejected_witness :
  failure Webhooks.reason_of
    (Webhooks.verify_molam_signature Sample.hmac Sample.digits
       (str "t=601000,v1=abc,kid=1") [] (fun _ => None) 300 1000)
  = Some TimestampOutOfTolerance /\
  failure Webhook.reason_of
    (Webhook.verify_signature Sample.hmac Sample.digits
       (str "t=601000,v1=abc,kid=1") [] (fun _ => None) (5 * 60 * 1000) 1000)
  = Some TimestampOutOfTolerance.
Proof.
  destruct (future_skew_rejected Sample.hmac Sample.digits) as [H102 H105].
  split.
  - apply (H102 _ _ _ 1000%Z (str "601000") (str "abc") (str "1")).
    split; [reflexivity|].
    exists (<[str "kid" := str "1"]>
              (<[str "v1" := str "abc"]> (<[str "t" := str "601000"]> empty))).
    run.
  - apply (H105 _ _ _ 1000%Z (str "601000") (str "abc") (str "1")).
    exists (<[str "kid" := str "1"]>
              (<[str "v1" := str "abc"]> (<[str "t" := str "601000"]> empty))).
    run.
Defined.

Section Taxonomy.
Variable hmac_sha256 : bytes -> bytes -> bytes.
Variable todecimal : N -> option N.

(** X6.  Malformed headers.  [verify_molam_signature] reports
    [MalformedHeader] for an empty header, for a header with a part that
    holds no [=], and for a header whose [t] or [v1] is absent or empty;
    [verify_signature] of brique-105 reports it for an empty header, for a
    part that holds no [=], and when one of [t], [v1], [kid] is absent. *)
Theorem malformed_header_rejected :
  (forall header payload get_secret tolerance_seconds now_ms,
     let o := Webhooks.verify_molam_signature hmac_sha256 todecimal
                header payload get_secret tolerance_seconds now_ms in
     (header = [] -> o = Raise (SdkError Webhooks.Missing_header))
     /\ (header <> [] -> mapM key_value (split 44 header) = None ->
         o = Raise (SdkError Webhooks.Invalid_header_format))
     /\ (forall parts,
           header <> [] ->
           Webhooks.parse_parts (split 44 header) empty = Return parts ->
           truthy_opt (parts !! str "t") = false
           \/ truthy_opt (parts !! str "v1") = false ->
           o = Raise (SdkError Webhooks.Missing_timestamp_or_signature))
     /\ (header = [] \/ mapM key_value (split 44 header) = None ->
         failure Webhooks.reason_of o = Some MalformedHeader)) /\
  (forall header raw_body get_secret tolerance_ms now_ms,
     let o := Webhook.verify_signature hmac_sha256 todecimal
                header raw_body get_secret tolerance_ms now_ms in
     (header = [] -> o = Raise (SdkError Webhook.Missing_signature_header))
     /\ (header <> [] -> mapM key_value (split 44 header) = None ->
         exists pair_,
           o = Raise (SdkError (Webhook.Invalid_signature_header_format pair_)))
     /\ (forall parts k,
           Webhook.parse_signature_header header = Return parts ->
           k ∈ Webhook.required_fields -> parts !! k = None ->
           o = Raise (SdkError (Webhook.Missing_required_fields
                                  (Webhook.required_fields ∖ dom parts))))
     /\ (header = [] \/ mapM key_value (split 44 header) = None ->
         failure Webhook.reason_of o = Some MalformedHeader)).
Proof.
  split.
  - intros header payload get_secret tol now o. subst o.
    unfold Webhooks.verify_molam_signature.
    pose proof (parse_parts_spec (split 44 header) empty) as Hp.
    assert (Hbad : header <> [] -> mapM key_value (split 44 header) = None ->
              Webhooks.verify_molam_signature hmac_sha256 todecimal
                header payload get_secret tol now
              = Raise (SdkError Webhooks.Invalid_header_format)).
    { intros Hne Hm. unfold Webhooks.verify_molam_signature.
      rewrite Hm in Hp. rewrite Hp.
      destruct header; [congruence | reflexivity]. }
    split; [|split; [|split]].
    + intros ->. reflexivity.
    + exact Hbad.
    + intros parts Hne Hparts Hmiss. rewrite Hparts.
      destruct header; [congruence|]. exec.
      destruct Hmiss as [-> | ->]; [reflexivity|].
      now rewrite orb_true_r.
    + intros [-> | Hm]; [reflexivity|].
      destruct header as [|c header]; [reflexivity|].
      fold (Webhooks.verify_molam_signature hmac_sha256 todecimal
              (c :: header) payload get_secret tol now).
      now rewrite Hbad.
  - intros header raw_body get_secret tol now o. subst o.
    pose proof (parse_pairs_spec (split 44 header) empty) as Hp.
    assert (Hbad : header <> [] -> mapM key_value (split 44 header) = None ->
              exists p,
                Webhook.verify_signature hmac_sha256 todecimal
                  header raw_body get_secret tol now
                = Raise (SdkError (Webhook.Invalid_signature_header_format p))).
    { intros Hne Hm. rewrite Hm in Hp. destruct Hp as (p & Hp). exists p.
      unfold Webhook.verify_signature, Webhook.parse_signature_header.
      rewrite Hp. destruct header; [congruence | reflexivity]. }
    split; [|split; [|split]].
    + intros ->. reflexivity.
    + exact Hbad.
    + intros parts k Hparts Hk Hnone. unfold Webhook.verify_signature.
      rewrite (parse_truthy _ _ Hparts). exec. rewrite Hparts. exec.
      rewrite bool_decide_eq_false_2; [reflexivity|].
      intros Hsub. apply Hsub, elem_of_dom in Hk as [v Hv]. congruence.
    + intros [-> | Hm]; [reflexivity|].
      destruct header as [|c header]; [reflexivity|].
      destruct (Hbad ltac:(discriminate) Hm) as (p & ->). reflexivity.
Qed.

(** X7.  Invalid timestamps.  A header that parses, with [t] and [v1]
    present (and [kid] too in brique-105), whose [t] is not an integer
    literal, is refused with [InvalidTimestamp] by both verifiers, whatever
    the clock and the resolver are.  In [verify_molam_signature] this needs a
    [t] and a [v1] that are not empty; in brique-105 an empty [t] is an
    invalid timestamp as well. *)
Theorem invalid_timestamp_rejected :
  (forall header payload get_secret tolerance_seconds now_ms parts t sig,
     header <> [] ->
     Webhooks.parse_parts (split 44 header) empty = Return parts ->
     parts !! str "t" = Some t -> parts !! str "v1" = Some sig ->
     t <> [] -> sig <> [] -> int todecimal t = None ->
     Webhooks.verify_molam_signature hmac_sha256 todecimal
       header payload get_secret tolerance_seconds now_ms
     = Raise (SdkError Webhooks.Invalid_timestamp_format)) /\
  (forall header raw_body get_secret tolerance_ms now_ms parts t sig kid,
     Webhook.parse_signature_header header = Return parts ->
     parts !! str "t" = Some t -> parts !! str "v1" = Some sig ->
     parts !! str "kid" = Some kid -> int todecimal t = None ->
     Webhook.verify_signature hmac_sha256 todecimal
       header raw_body get_secret tolerance_ms now_ms
     = Raise (SdkError Webhook.Invalid_timestamp_format)).
Proof.
  split.
  - intros header payload get_secret tol now parts t sig
      Hne Hp Ht Hs Htne Hsne Hi.
    unfold Webhooks.verify_molam_signature.
    destruct header; [congruence|]. exec. rewrite Hp. exec.
    rewrite Ht, Hs. exec.
    destruct t; [congruence|]. destruct sig; [congruence|]. exec.
    now rewrite Hi.
  - intros header raw_body get_secret tol now parts t sig kid
      Hp Ht Hs Hk Hi.
    unfold Webhook.verify_signature.
    rewrite (parse_truthy _ _ Hp). exec. rewrite Hp. exec.
    rewrite (required_present _ _ _ _ Ht Hs Hk). exec.
    rewrite (getitem_Some _ _ _ Ht). exec. now rewrite Hi.
Qed.
End Taxonomy.

(** X6, witness: the header [invalid_format], and the header [t=1000,v1=abc]
    in brique-105. *)
Lemma malformed_header_rejected_witness :
  Webhooks.verify_molam_signature Sample.hmac Sample.digits
    (str "invalid_format") [] (fun _ => None) 300 1000
  = Raise (SdkError Webhooks.Invalid_header_format) /\
  Webhooks.verify_molam_signature Sample.hmac Sample.digits
    (str "t=,v1=abc") [] (fun _ => None) 300 1000
  = Raise (SdkError Webhooks.Missing_timestamp_or_signature) /\
  Webhook.verify_signature Sample.hmac Sample.digits
    (str "t=1000,v1=abc") [] (fun _ => None) 300000 1000
  = Raise (SdkError (Webhook.Missing_required_fields
                       (Webhook.required_fields
                          ∖ dom (<[str "v1" := str "abc"]>
                                   (<[str "t" := str "1000"]>
                                      (empty : gmap pystr pystr)))))).
Proof.
  destruct (malformed_header_rejected Sample.hmac Sample.digits)
    as [H102 H105].
  split; [|split].
  - apply (proj1 (proj2 (H102 (str "invalid_format") [] (fun _ => None)
                           300%Z 1000%Z)));
      [discriminate | vm_compute; reflexivity].
  - apply (proj1 (proj2 (proj2 (H102 (str "t=,v1=abc") [] (fun _ => None)
                                  300%Z 1000%Z)))
             (<[str "v1" := str "abc"]> (<[str "t" := []]> empty)));
      [discriminate | vm_compute; reflexivity | left; vm_compute; reflexivity].
  - apply (proj1 (proj2 (proj2 (H105 (str "t=1000,v1=abc") [] (fun _ => None)
                                  300000%Z 1000%Z)))
             (<[str "v1" := str "abc"]> (<[str "t" := str "1000"]> empty))
             (str "kid"));
      [vm_compute; reflexivity | | vm_compute; reflexivity].
    unfold Webhook.required_fields. set_solver.
Defined.

(** X7, witness: the header [t=invalid,v1=abc,kid=1]. *)
Lemma invalid_timestamp_rejected_witness :
  Webhooks.verify_molam_signature Sample.hmac Sample.digits
    (str "t=invalid,v1=abc,kid=1") [] (fun _ => None) 300 1000
  = Raise (SdkError Webhooks.Invalid_timestamp_format) /\
  Webhook.verify_signature Sample.hmac Sample.digits
    (str "t=invalid,v1=abc,kid=1") [] (fun _ => None) 300000 1000
  = Raise (SdkError Webhook.Invalid_timestamp_format).
Proof.
  destruct (invalid_timestamp_rejected Sample.hmac Sample.digits)
    as [H102 H105].
  split.
  - apply (H102 _ _ _ _ _
             (<[str "kid" := str "1"]>
                (<[str "v1" := str "abc"]> (<[str "t" := str "invalid"]> empty)))
             (str "invalid") (str "abc"));
      try discriminate; vm_compute; reflexivity.
  - apply (H105 _ _ _ _ _
             (<[str "kid" := str "1"]>
                (<[str "v1" := str "abc"]> (<[str "t" := str "invalid"]> empty)))
             (str "invalid") (str "abc") (str "1"));
      vm_compute; reflexivity.
Defined.

End Claims.

(** * Facts about the further primitives *)
Module MoreFacts.
Import Py PyMore Spec CallerSpec PyFacts ParseFacts VerifyFacts.

(** [dict] builds the dictionary that the parsing loop of
    [verify_molam_signature] builds. *)
Lemma dict_of_pairs_spec {M : Type} segs : forall m,
  match mapM key_value segs with
  | Some kvs =>
      exists parts, @dict_of_pairs M segs m = Return parts /\
        forall k, parts !! k =
                  match last_value k kvs with Some v => Some v | None => m !! k end
  | None => @dict_of_pairs M segs m = Raise ValueError
  end.
Proof.
  induction segs as [|part segs IH]; intros m; cbn [mapM dict_of_pairs].
  - exists m. auto.
  - fold (key_value part). destruct (key_value part) as [[k0 v0]|]; cbn;
      [|reflexivity].
    specialize (IH (<[k0:=v0]> m)).
    destruct (mapM key_value segs) as [kvs|]; cbn; [|exact IH].
    destruct IH as (parts & Hp & Hl). exists parts. split; [exact Hp|].
    intros k. rewrite Hl. destruct (last_value k kvs); [reflexivity|].
    rewrite lookup_insert. destruct (decide (k0 = k)); reflexivity.
Qed.

Lemma dict_of_pairs_parse_parts {M : Type} segs : forall m parts,
  Webhooks.parse_parts segs m = Return parts ->
  @dict_of_pairs M segs m = Return parts.
Proof.
  induction segs as [|part segs IH]; intros m parts;
    cbn [Webhooks.parse_parts dict_of_pairs].
  - intros [= ->]. reflexivity.
  - destruct (unpack2 (split1 61 part)) as [kv|]; cbn; [apply IH|discriminate].
Qed.

End MoreFacts.

(** * The verifiers of packages/python/molam *)
Module MolamFacts.
Import Py PyMore Spec CallerSpec PyFacts ParseFacts VerifyFacts MoreFacts.

(** [dict] raises nothing but [ValueError], whatever the messages of the
    module are. *)
Lemma dict_of_pairs_messages {M M' : Type} segs : forall m,
  @dict_of_pairs M' segs m
  = match @dict_of_pairs M segs m with
    | Return parts => Return parts
    | Raise _ => Raise ValueError
    end.
Proof.
  induction segs as [|part segs IH]; intros m; cbn [dict_of_pairs];
    [reflexivity|].
  destruct (unpack2 (split1 61 part)) as [kv|]; cbn; [apply IH|reflexivity].
Qed.

Section Verifiers.
Variable hmac_sha256 : bytes -> bytes -> bytes.
Variable todecimal : N -> option N.

(** [verify_webhook] once the header and the window are accepted. *)
Lemma verify_webhook_in_window raw_body header get_secret now_ms t sig kid ts :
  well_formed_102 todecimal header t sig kid ts ->
  (Z.abs (now_ms - ts) <= 5 * 60 * 1000)%Z ->
  MolamClient.verify_webhook hmac_sha256 todecimal
    raw_body header get_secret now_ms
  = (raise_if (negb (truthy_opt (get_secret kid)))
       (SdkError (MolamClient.No_secret_found kid)) ;;
     body <- try_or (utf8_decode raw_body) UnicodeDecodeError ;;
     key <- try_or (utf8_encode (default [] (get_secret kid)))
              UnicodeEncodeError ;;
     message_bytes <- try_or (utf8_encode (t ++ str "." ++ body))
                        UnicodeEncodeError ;;
     equal <- try_or (compare_digest
                        (hexlify (hmac_sha256 key message_bytes)) sig)
                TypeError ;;
     raise_if (negb equal) (SdkError MolamClient.Signature_mismatch) ;;
     Return true).
Proof.
  intros (Hh & parts & Hp & Ht & Hs & Hk & Htt & Hst & Hi) Htol.
  unfold MolamClient.verify_webhook.
  rewrite (dict_of_pairs_parse_parts _ _ _ Hp). exec.
  rewrite Ht, Hs. exec. rewrite Htt, Hst. exec. rewrite Hi. exec.
  destruct (Z.gtb_spec (Z.abs (now_ms - ts)) (5 * 60 * 1000)); [lia|].
  exec. now rewrite Hk.
Qed.

(** The same for [verify_signature] of the webhooks resource. *)
Lemma resource_in_window raw_body header secret now_ms t sig kid ts :
  well_formed_102 todecimal header t sig kid ts ->
  (Z.abs (now_ms - ts) <= 5 * 60 * 1000)%Z ->
  WebhooksResource.verify_signature hmac_sha256 todecimal
    raw_body header secret now_ms
  = (key <- try_or (utf8_encode secret) UnicodeEncodeError ;;
     message_bytes <- try_or (utf8_encode (t ++ str "." ++ raw_body))
                        UnicodeEncodeError ;;
     equal <- try_or (compare_digest
                        (hexlify (hmac_sha256 key message_bytes)) sig)
                TypeError ;;
     raise_if (negb equal) (SdkError WebhooksResource.Signature_mismatch) ;;
     Return true).
Proof.
  intros (Hh & parts & Hp & Ht & Hs & Hk & Htt & Hst & Hi) Htol.
  unfold WebhooksResource.verify_signature.
  rewrite (dict_of_pairs_parse_parts _ _ _ Hp). exec.
  rewrite Ht, Hs. exec. rewrite Htt, Hst. exec. rewrite Hi. exec.
  destruct (Z.gtb_spec (Z.abs (now_ms - ts)) (5 * 60 * 1000)); [lia|].
  reflexivity.
Qed.

(** X8.  The two verifiers of packages/python/molam give the same verdict:
    for a body that is valid UTF-8 and a secret that is not empty,
    [Webhooks.verify_signature] on the decoded body and
    [MolamClient.verify_webhook] on the bytes, with a resolver that returns
    the secret for every key id, both return [True] or both fail in the same
    way, for every header and clock. *)
Theorem molam_verifiers_agree :
  forall raw_body body header secret now_ms,
    utf8_decode raw_body = Some body -> truthy secret = true ->
    verdict resource_reason
      (WebhooksResource.verify_signature hmac_sha256 todecimal
         body header secret now_ms)
    = verdict client_reason
        (MolamClient.verify_webhook hmac_sha256 todecimal
           raw_body header (fun _ => Some secret) now_ms).
Proof.
  intros raw_body body header secret now Hb Hs.
  unfold WebhooksResource.verify_signature, MolamClient.verify_webhook.
  rewrite (@dict_of_pairs_messages MolamClient.message
             WebhooksResource.message).
  pose proof (@dict_of_pairs_spec MolamClient.message (split 44 header) empty)
    as Hd.
  destruct (mapM key_value (split 44 header)) as [kvs|];
    [destruct Hd as (parts & -> & _) | now rewrite Hd].
  exec'. cbn [truthy_opt]. rewrite Hs, Hb.
  repeat (exec'; branch); exec'; reflexivity.
Qed.

(** X9.  The packages agree on the wire: a header that [generate_signature]
    of brique-105 builds over a UTF-8 payload, with a secret that is not
    empty and a key id without commas, is accepted within five minutes by
    [MolamClient.verify_webhook] on the payload bytes and by
    [Webhooks.verify_signature] on the decoded payload, when the digest is
    not empty. *)
Theorem generated_header_verifies_in_molam :
  forall payload body secret key kid ts get_secret now_gen now_ms,
    utf8_decode payload = Some body -> utf8_encode secret = Some key ->
    truthy secret = true -> no_comma kid = true ->
    get_secret kid = Some secret ->
    (Z.abs (now_ms - ts) <= 5 * 60 * 1000)%Z ->
    hmac_sha256 key (map byte_of_N (format_int ts) ++ x2e :: payload) <> [] ->
    exists header,
      Webhook.generate_signature hmac_sha256 payload secret (Some ts)
        kid now_gen = Return header /\
      MolamClient.verify_webhook hmac_sha256 todecimal
        payload header get_secret now_ms = Return true /\
      WebhooksResource.verify_signature hmac_sha256 todecimal
        body header secret now_ms = Return true.
Proof.
  intros payload body secret key kid ts get_secret now_gen now
    Hb He Hs Hc Hg Htol Hne.
  eexists.
  rewrite (generate_signature_returns _ _ _ _ _ (Some ts) kid now_gen Hb He).
  split; [reflexivity|]. cbn [default from_option id].
  set (sig := hexlify _).
  assert (Hsig : forallb token_char sig = true) by apply hexlify_token.
  assert (Hsome : truthy sig = true).
  { subst sig. destruct (hmac_sha256 key _); [congruence|reflexivity]. }
  assert (Hwf : well_formed_102 todecimal
                  (wire_header (format_int ts) sig kid)
                  (format_int ts) sig kid ts)
    by now apply wire_header_well_formed_102.
  split.
  - rewrite (verify_webhook_in_window _ _ _ _ _ _ _ _ Hwf Htol), Hg.
    cbn [truthy_opt]. rewrite Hs. exec. rewrite Hb. exec. rewrite He. exec.
    rewrite (encode_signed _ _ _ _ (format_int_encode ts) Hb). exec.
    fold sig. rewrite compare_digest_refl by now apply token_is_ascii.
    reflexivity.
  - rewrite (resource_in_window _ _ _ _ _ _ _ _ Hwf Htol), He. exec.
    rewrite (encode_signed _ _ _ _ (format_int_encode ts) Hb). exec.
    fold sig. rewrite compare_digest_refl by now apply token_is_ascii.
    reflexivity.
Qed.

(** X10.  How [MolamClient.verify_webhook] fails.  It never returns
    [False] and never raises [KeyError]: it returns [True], raises a
    [ValueError] (one of its own, or the bare one of [dict] and [int], or a
    Unicode error), or lets the [TypeError] of [compare_digest] escape.  A
    header with a part that holds no [=] and a timestamp that is no integer
    literal both end in the bare [ValueError].  The window is fixed: a
    well-formed header is refused as outside the tolerance exactly when the
    clock is more than 300000 ms away from its timestamp, whatever the
    secret is. *)
Theorem verify_webhook_failures :
  forall raw_body header get_secret now_ms,
    let o := MolamClient.verify_webhook hmac_sha256 todecimal
               raw_body header get_secret now_ms in
    (o = Return true
     \/ (exists e, o = Raise e /\ is_value_error e = true)
     \/ o = Raise TypeError)
    /\ (mapM key_value (split 44 header) = None -> o = Raise ValueError)
    /\ (forall parts t sig,
          Webhooks.parse_parts (split 44 header) empty = Return parts ->
          parts !! str "t" = Some t -> parts !! str "v1" = Some sig ->
          t <> [] -> sig <> [] -> int todecimal t = None ->
          o = Raise ValueError)
    /\ (forall t sig kid ts,
          well_formed_102 todecimal header t sig kid ts ->
          (o = Raise (SdkError
                        MolamClient.Signature_timestamp_outside_tolerance)
           <-> (Z.abs (now_ms - ts) > 300000)%Z)).
Proof.
  intros raw_body header get_secret now o. subst o.
  pose proof (@dict_of_pairs_spec MolamClient.message (split 44 header) empty)
    as Hd.
  split; [|split; [|split]].
  - unfold MolamClient.verify_webhook.
    destruct (mapM key_value (split 44 header)) as [kvs|];
      [destruct Hd as (parts & -> & _) | rewrite Hd; cbn; eauto].
    repeat (exec; branch); exec; eauto.
  - intros Hm. unfold MolamClient.verify_webhook. rewrite Hm in Hd.
    now rewrite Hd.
  - intros parts t sig Hp Ht Hs Htne Hsne Hi.
    unfold MolamClient.verify_webhook.
    rewrite (dict_of_pairs_parse_parts _ _ _ Hp). exec. rewrite Ht, Hs. exec.
    destruct t; [congruence|]. destruct sig; [congruence|]. exec.
    now rewrite Hi.
  - intros t sig kid ts Hwf.
    destruct (Z.le_gt_cases (Z.abs (now - ts)) 300000) as [Hin|Hout].
    + rewrite (verify_webhook_in_window _ _ _ _ _ _ _ _ Hwf Hin).
      split; [|lia]. intros H. exfalso. revert H.
      repeat (exec; branch); exec; discriminate.
    + split; [lia|]. intros _.
      destruct Hwf as (Hh & parts & Hp & Ht & Hs & Hk & Htt & Hst & Hi).
      unfold MolamClient.verify_webhook.
      rewrite (dict_of_pairs_parse_parts _ _ _ Hp). exec.
      rewrite Ht, Hs. exec. rewrite Htt, Hst. exec. rewrite Hi. exec.
      destruct (Z.gtb_spec (Z.abs (now - ts)) (5 * 60 * 1000)); [|lia].
      reflexivity.
Qed.

(** The dictionary of the example handler is the one of
    [verify_molam_signature]. *)
Lemma dict_of_parts_parse_parts segs : forall m parts,
  Webhooks.parse_parts segs m = Return parts ->
  WebhookHandler.dict_of_parts segs m = Return parts.
Proof.
  induction segs as [|part segs IH]; intros m parts;
    cbn [Webhooks.parse_parts WebhookHandler.dict_of_parts].
  - intros [= ->]. reflexivity.
  - destruct (unpack2 (split1 61 part)) as [kv|]; cbn; [apply IH|discriminate].
Qed.

(** X11.  The empty secret is a key for two of the verifiers.
    [Webhooks.verify_signature] of packages/python/molam and the example
    handler do not check that the secret is set: with the empty secret they
    return [True] for a well-formed header inside the window exactly when the
    digest is the HMAC under the empty key, which anyone can compute.
    [MolamClient.verify_webhook] refuses the same header, since its resolver
    returned no secret. *)
Theorem empty_secret_is_a_key :
  forall header now_ms t sig kid ts,
    well_formed_102 todecimal header t sig kid ts ->
    (Z.abs (now_ms - ts) <= 300000)%Z -> is_ascii sig = true ->
    (forall body tb bb,
       utf8_encode t = Some tb -> utf8_encode body = Some bb ->
       (WebhooksResource.verify_signature hmac_sha256 todecimal
          body header [] now_ms = Return true
        <-> sig = hexlify (hmac_sha256 [] (tb ++ x2e :: bb))))
    /\ (forall payload,
          WebhookHandler.verify_signature hmac_sha256 todecimal
            payload header [] now_ms = Return true
          <-> sig = hexlify (hmac_sha256 []
                               (map byte_of_N (format_int ts)
                                  ++ x2e :: payload)))
    /\ (forall raw_body,
          MolamClient.verify_webhook hmac_sha256 todecimal
            raw_body header (fun _ => Some []) now_ms
          = Raise (SdkError (MolamClient.No_secret_found kid))).
Proof.
  intros header now t sig kid ts Hwf Htol Ha. split; [|split].
  - intros body tb bb Htb Hbb.
    rewrite (resource_in_window _ _ _ _ _ _ _ _ Hwf Htol).
    change (utf8_encode []) with (Some (@nil byte)). exec.
    rewrite !utf8_encode_app, Htb, Hbb.
    change (utf8_encode (str ".")) with (Some [x2e]). exec.
    unfold compare_digest.
    rewrite (token_is_ascii _ (hexlify_token _)), Ha. exec.
    cbn [app]. case_bool_decide as Heq; exec;
      split; congruence.
  - intros payload.
    destruct Hwf as (Hh & parts & Hp & Ht & Hs & Hk & Htt & Hst & Hi).
    unfold WebhookHandler.verify_signature.
    rewrite (dict_of_parts_parse_parts _ _ _ Hp). exec.
    rewrite (getitem_Some _ _ _ Ht). exec. rewrite Hi. exec.
    rewrite (getitem_Some _ _ _ Hs). exec.
    destruct (Z.gtb_spec (Z.abs (now - ts))
                (WebhookHandler.WEBHOOK_TOLERANCE_SECONDS * 1000));
      [unfold WebhookHandler.WEBHOOK_TOLERANCE_SECONDS in *; lia|].
    rewrite (encode_prefix _ _ (format_int_encode ts)). exec.
    change (utf8_encode []) with (Some (@nil byte)). exec.
    rewrite <- app_assoc. cbn [app]. unfold compare_digest.
    rewrite (token_is_ascii _ (hexlify_token _)), Ha. exec.
    case_bool_decide as Heq; split; congruence.
  - intros raw_body.
    now rewrite (verify_webhook_in_window _ _ _ _ _ _ _ _ Hwf Htol).
Qed.
End Verifiers.

(** X8, witness: the body [{}] under a header with another digest. *)
Lemma molam_verifiers_agree_witness :
  verdict resource_reason
    (WebhooksResource.verify_signature Sample.hmac Sample.digits
       (str "{}") (str "t=1000,v1=abc,kid=1") (str "s") 1000)
  = verdict client_reason
      (MolamClient.verify_webhook Sample.hmac Sample.digits
         (Hashlib.b "{}") (str "t=1000,v1=abc,kid=1")
         (fun _ => Some (str "s")) 1000).
Proof.
  apply (molam_verifiers_agree Sample.hmac Sample.digits
           (Hashlib.b "{}") (str "{}")); vm_compute; reflexivity.
Defined.

(** X9, witness: the event of the test suites. *)
Lemma generated_header_verifies_in_molam_witness :
  exists header,
    Webhook.generate_signature Sample.hmac Sample.event_body
      (str "whsec_test_secret_123") (Some 1700000000000%Z) (str "v1") 0
    = Return header /\
    MolamClient.verify_webhook Sample.hmac Sample.digits
      Sample.event_body header
      (Sample.one_secret (str "v1") (str "whsec_test_secret_123"))
      1700000000000
    = Return true /\
    WebhooksResource.verify_signature Sample.hmac Sample.digits
      (map (fun x => Byte.to_N x) Sample.event_body) header
      (str "whsec_test_secret_123") 1700000000000
    = Return true.
Proof.
  apply (generated_header_verifies_in_molam Sample.hmac Sample.digits
           Sample.event_body
           (map (fun x => Byte.to_N x) Sample.event_body)
           (str "whsec_test_secret_123")
           (Hashlib.b "whsec_test_secret_123") (str "v1"));
    try (vm_compute; reflexivity); [lia|].
  vm_compute. discriminate.
Defined.

(** X10, witness: the header [invalid_format], and a header stamped 1000
    read at clock 301001. *)
Lemma verify_webhook_failures_witness :
  MolamClient.verify_webhook Sample.hmac Sample.digits
    [] (str "invalid_format") (fun _ => None) 1000
  = Raise ValueError /\
  MolamClient.verify_webhook Sample.hmac Sample.digits
    [] (str "t=1000,v1=abc,kid=1") (fun _ => None) 301001
  = Raise (SdkError MolamClient.Signature_timestamp_outside_tolerance).
Proof.
  split.
  - apply (proj1 (proj2 (verify_webhook_failures Sample.hmac Sample.digits
                           [] (str "invalid_format") (fun _ => None) 1000%Z))).
    vm_compute. reflexivity.
  - apply (proj2 (proj2 (proj2 (verify_webhook_failures
                                  Sample.hmac Sample.digits
                                  [] (str "t=1000,v1=abc,kid=1")
                                  (fun _ => None) 301001%Z)))
             (str "1000") (str "abc") (str "1") 1000%Z); [|lia].
    split; [reflexivity|].
    exists (<[str "kid" := str "1"]>
              (<[str "v1" := str "abc"]> (<[str "t" := str "1000"]> empty))).
    run.
Defined.

(** X11, witness: the body [{}] signed at 1000 under the empty key. *)
Lemma empty_secret_is_a_key_witness :
  WebhooksResource.verify_signature Sample.hmac Sample.digits
    (str "{}")
    (str "t=1000,v1=a27a63bc7cdc6a967b1109f1f641524c330f061e4b670d6aea80c9ad2413ab13,kid=1")
    [] 1000
  = Return true.
Proof.
  refine (proj2 (proj1 (empty_secret_is_a_key Sample.hmac Sample.digits
            (str "t=1000,v1=a27a63bc7cdc6a967b1109f1f641524c330f061e4b670d6aea80c9ad2413ab13,kid=1")
            1000%Z (str "1000")
            (str "a27a63bc7cdc6a967b1109f1f641524c330f061e4b670d6aea80c9ad2413ab13")
            (str "1") 1000%Z _ _ _)
            (str "{}") (Hashlib.b "1000") (Hashlib.b "{}") _ _) _);
    [|lia|run..].
  split; [reflexivity|].
  exists (<[str "kid" := str "1"]>
            (<[str "v1" := str "a27a63bc7cdc6a967b1109f1f641524c330f061e4b670d6aea80c9ad2413ab13"]>
               (<[str "t" := str "1000"]> empty))).
  run.
Defined.

End MolamFacts.

(** * [construct_event] *)
Module EventFacts.
Import Py PyMore Spec CallerSpec PyFacts ParseFacts VerifyFacts MoreFacts.

Section Event.
Variable hmac_sha256 : bytes -> bytes -> bytes.
Variable todecimal : N -> option N.


End Event.


End EventFacts.

(** * The configuration and the client of brique-105 *)
Module ClientFacts.
Import Py PyMore Spec CallerSpec PyFacts ParseFacts VerifyFacts MoreFacts.

Lemma lstrip_char_head c s : head (lstrip_char c s) <> Some c.
Proof.
  induction s as [|x s IH]; cbn [lstrip_char]; [discriminate|].
  destruct (N.eqb_spec x c); [exact IH|]. cbn. congruence.
Qed.

Lemma last_rev {A : Type} (l : list A) : last (rev l) = head l.
Proof. destruct l as [|x l]; [reflexivity|]. cbn [rev]. apply last_snoc. Qed.

Lemma rstrip_char_last c s : last (rstrip_char c s) <> Some c.
Proof. unfold rstrip_char. rewrite last_rev. apply lstrip_char_head. Qed.

(** The leading [c]s are what [lstrip] removes. *)
Lemma lstrip_char_repeat c s :
  exists n, s = repeat c n ++ lstrip_char c s.
Proof.
  induction s as [|x s (n & IH)]; cbn [lstrip_char]; [now exists 0%nat|].
  destruct (N.eqb_spec x c) as [->|]; [|now exists 0%nat].
  exists (S n). cbn [repeat app]. now rewrite <- IH.
Qed.

(** X13.  What [Config] guarantees.  A configuration that the constructor
    returns has an API key that starts with [sk_] or [jwt_] (so it is not
    empty) and a base URL that does not end in a slash.  A non-empty
    [api_key] argument is the key, before the environment; without it the
    key is the value of [MOLAM_API_KEY].  The constructor raises its
    key-required error exactly when the argument is missing or empty and the
    variable is unset or empty.  Without a [webhook_secret] argument and
    without [MOLAM_WEBHOOK_SECRET] the secret is the empty string. *)
Theorem config_invariants :
  forall environ api_base api_key default_currency default_locale
         webhook_secret timeout max_retries,
    let o := Config.__init__ environ api_base api_key default_currency
               default_locale webhook_secret timeout max_retries in
    (forall c, o = Return c ->
       startswith_any [str "sk_"; str "jwt_"] (Config.api_key c) = true
       /\ Config.api_key c <> []
       /\ last (Config.api_base c) <> Some 47%N
       /\ (forall k, api_key = Some k -> k <> [] -> Config.api_key c = k)
       /\ (truthy_opt api_key = false ->
           environ !! str "MOLAM_API_KEY" = Some (Config.api_key c))
       /\ (truthy_opt webhook_secret = false ->
           environ !! str "MOLAM_WEBHOOK_SECRET" = None ->
           Config.webhook_secret c = []))
    /\ (o = Raise Config.Api_key_required
        <-> truthy_opt api_key = false
            /\ (environ !! str "MOLAM_API_KEY" = None
                \/ environ !! str "MOLAM_API_KEY" = Some [])).
Proof.
  intros environ api_base api_key cur loc ws timeout retries o. subst o.
  unfold Config.__init__. cbv zeta.
  set (key := or_else api_key (getenv environ (str "MOLAM_API_KEY") [])).
  assert (Hkey : (forall k, api_key = Some k -> k <> [] -> key = k)
                 /\ (truthy_opt api_key = false ->
                     key = default [] (environ !! str "MOLAM_API_KEY"))).
  { subst key. unfold or_else, getenv. split.
    - intros k -> Hk. destruct k; [congruence|reflexivity].
    - now intros ->. }
  destruct Hkey as [Harg Henv].
  split.
  - intros c. destruct (truthy key) eqn:Ht; [|discriminate]. exec.
    destruct (startswith_any _ key) eqn:Hs; [|discriminate]. exec.
    intros [= <-]. cbn [Config.api_key Config.api_base Config.webhook_secret].
    split; [exact Hs|]. split; [now destruct key|].
    split; [apply rstrip_char_last|]. split; [exact Harg|]. split.
    + intros Hn. specialize (Henv Hn).
      destruct (environ !! str "MOLAM_API_KEY") as [v|]; cbn in Henv;
        [now subst v | rewrite Henv in Ht; discriminate].
    + intros Hn Hw. unfold or_else, getenv. now rewrite Hn, Hw.
  - split.
    + destruct (truthy key) eqn:Ht; exec;
        [destruct (startswith_any _ key); discriminate|].
      intros _. destruct (truthy_opt api_key) eqn:Ha.
      * destruct api_key as [[|x k]|]; discriminate.
      * split; [reflexivity|]. rewrite (Henv eq_refl) in Ht.
        destruct (environ !! str "MOLAM_API_KEY") as [[|x v]|]; cbn in Ht;
          auto; discriminate.
    + intros [Ha He]. rewrite (Henv Ha).
      destruct He as [-> | ->]; reflexivity.
Qed.

(** X13, witness: a key given as argument, with a base URL that ends in two
    slashes. *)
Lemma config_invariants_witness :
  exists c,
    Config.__init__ empty (Some (str "https://sandbox.molam.com//"))
      (Some (str "sk_test_1")) (str "USD") (str "en") None 30 3 = Return c
    /\ Config.api_key c = str "sk_test_1"
    /\ last (Config.api_base c) <> Some 47%N.
Proof.
  eexists. split; [vm_compute; reflexivity|].
  destruct (proj1 (config_invariants empty
                     (Some (str "https://sandbox.molam.com//"))
                     (Some (str "sk_test_1")) (str "USD") (str "en") None
                     30%Z 3%Z) _ eq_refl)
    as (_ & _ & Hb & Hk & _).
  split; [|exact Hb]. apply Hk; [reflexivity|discriminate].
Defined.

Section Webhooks.
Variable hmac_sha256 : bytes -> bytes -> bytes.
Variable todecimal : N -> option N.

(** X14.  [verify_webhook_signature] of the client knows one secret.  With
    no secret configured (the empty string) every well-formed header inside
    the five-minute window is refused as an unknown key.  With a secret, the
    key id of the header plays no role: two headers that differ in their key
    id only get the same outcome, and a header that [generate_signature]
    builds with the configured secret verifies under any key id (free of
    commas and of surrounding blanks). *)
Theorem client_knows_one_secret :
  (forall config header raw_body now_ms t sig kid ts,
     well_formed_105 todecimal header t sig kid ts ->
     (Z.abs (now_ms - ts) <= 300000)%Z ->
     Config.webhook_secret config = [] ->
     Client.verify_webhook_signature hmac_sha256 todecimal
       config header raw_body now_ms
     = Raise (SdkError (Webhook.Secret_not_found kid))) /\
  (forall config header header' raw_body now_ms t sig kid kid' ts,
     well_formed_105 todecimal header t sig kid ts ->
     well_formed_105 todecimal header' t sig kid' ts ->
     Config.webhook_secret config <> [] ->
     Client.verify_webhook_signature hmac_sha256 todecimal
       config header raw_body now_ms
     = Client.verify_webhook_signature hmac_sha256 todecimal
         config header' raw_body now_ms) /\
  (forall config payload body key kid ts now_gen now_ms,
     utf8_decode payload = Some body ->
     utf8_encode (Config.webhook_secret config) = Some key ->
     Config.webhook_secret config <> [] ->
     no_comma kid = true -> strip kid = kid ->
     (Z.abs (now_ms - ts) <= 300000)%Z ->
     exists header,
       Webhook.generate_signature hmac_sha256 payload
         (Config.webhook_secret config) (Some ts) kid now_gen
       = Return header /\
       Client.verify_webhook_signature hmac_sha256 todecimal
         config header payload now_ms = Return true).
Proof.
  unfold Client.verify_webhook_signature. split; [|split].
  - intros config header raw_body now t sig kid ts Hwf Htol Hs.
    rewrite (verify_105_in_window _ _ _ _ _ _ _ _ _ _ _ Hwf Htol), Hs.
    reflexivity.
  - intros config header header' raw_body now t sig kid kid' ts
      Hwf Hwf' Hs.
    destruct (Z.le_gt_cases (Z.abs (now - ts)) (5 * 60 * 1000))
      as [Hin|Hout].
    + rewrite (verify_105_in_window _ _ _ _ _ _ _ _ _ _ _ Hwf Hin).
      rewrite (verify_105_in_window _ _ _ _ _ _ _ _ _ _ _ Hwf' Hin).
      cbn [truthy_opt]. destruct (Config.webhook_secret config);
        [congruence|reflexivity].
    + destruct Hwf as (parts & Hp & Ht & Hv & Hk & Hi).
      destruct Hwf' as (parts' & Hp' & Ht' & Hv' & Hk' & Hi').
      unfold Webhook.verify_signature.
      rewrite (parse_truthy _ _ Hp), (parse_truthy _ _ Hp'). exec.
      rewrite Hp, Hp'. exec.
      rewrite (required_present _ _ _ _ Ht Hv Hk),
        (required_present _ _ _ _ Ht' Hv' Hk'). exec.
      rewrite !(getitem_Some _ _ _ Ht), !(getitem_Some _ _ _ Ht'). exec.
      rewrite Hi. exec.
      rewrite (getitem_Some _ _ _ Hv), (getitem_Some _ _ _ Hv'),
        (getitem_Some _ _ _ Hk), (getitem_Some _ _ _ Hk'). exec.
      destruct (Z.gtb_spec (Z.abs (now - ts)) (5 * 60 * 1000)); [|lia].
      reflexivity.
  - intros config payload body key kid ts now_gen now Hb He Hs Hc Hk Htol.
    eexists.
    rewrite (generate_signature_returns _ _ _ _ _ (Some ts) kid now_gen Hb He).
    split; [reflexivity|]. cbn [default from_option id].
    eapply verify_signed_header; try eassumption; [|reflexivity].
    now destruct (Config.webhook_secret config).
Qed.
End Webhooks.

(** X14, witness: a client without secret, and one with the secret of the
    test suite. *)
Lemma client_knows_one_secret_witness :
  let config secret :=
    {| Config.api_base := str "https://api.molam.com";
       Config.api_key := str "sk_test_1";
       Config.default_currency := str "USD";
       Config.default_locale := str "en";
       Config.webhook_secret := secret;
       Config.timeout := 30;
       Config.max_retries := 3 |} in
  Client.verify_webhook_signature Sample.hmac Sample.digits
    (config []) (str "t=1000,v1=abc,kid=1") [] 1000
  = Raise (SdkError (Webhook.Secret_not_found (str "1"))) /\
  exists header,
    Webhook.generate_signature Sample.hmac (Hashlib.b "{}")
      (str "whsec_test_secret_123") (Some 1700000000000%Z) (str "7") 0
    = Return header /\
    Client.verify_webhook_signature Sample.hmac Sample.digits
      (config (str "whsec_test_secret_123")) header (Hashlib.b "{}")
      1700000000000
    = Return true.
Proof.
  cbv zeta.
  destruct (client_knows_one_secret Sample.hmac Sample.digits)
    as (Hnone & _ & Hrt).
  split.
  - apply (Hnone _ _ _ _ (str "1000") (str "abc") (str "1") 1000%Z);
      [|lia|reflexivity].
    exists (<[str "kid" := str "1"]>
              (<[str "v1" := str "abc"]> (<[str "t" := str "1000"]> empty))).
    run.
  - apply (Hrt {| Config.api_base := str "https://api.molam.com";
                  Config.api_key := str "sk_test_1";
                  Config.default_currency := str "USD";
                  Config.default_locale := str "en";
                  Config.webhook_secret := str "whsec_test_secret_123";
                  Config.timeout := 30;
                  Config.max_retries := 3 |}
             (Hashlib.b "{}") (str "{}")
             (Hashlib.b "whsec_test_secret_123") (str "7"));
      try (vm_compute; reflexivity); [discriminate | lia].
Defined.

Section Request.
Variable J : Type.
Variable json_loads : pystr -> option J.
Variable bool_of : J -> bool.
Variable B : Type.
Variable X : Type.
Variable send :
  pystr -> pystr -> gmap pystr pystr -> option B -> Z
  -> result X (Z * pystr * gmap pystr pystr).

(** [_request] up to the call of the adapter. *)
Lemma request_sent config method path body key now_ms random_bytes :
  (forall k, key = Some k -> (length k <= 128)%nat) ->
  Client._request J json_loads bool_of B X send
    config method path body key now_ms random_bytes
  = Client._request J json_loads bool_of B X
      (fun _ _ _ _ _ =>
         send method (request_url config path) (request_headers config key)
           body (Config.timeout config))
      config method path body None now_ms random_bytes.
Proof.
  intros Hlen. unfold Client._request, request_url, request_headers.
  cbv zeta. destruct key as [[|x k]|]; cbn [truthy_opt truthy]; try reflexivity.
  unfold Idempotency.make_idempotency_key.
  cbn [truthy_opt truthy default from_option id].
  specialize (Hlen _ eq_refl).
  destruct (Nat.ltb_spec 128 (length (x :: k))); [lia|]. reflexivity.
Qed.

(** X15.  The request that [_request] sends.  A key of more than 128
    characters raises the [ValueError] of [make_idempotency_key] and nothing
    is sent.  Otherwise the adapter is asked once, and when it raises, its
    exception is the outcome.  The [Idempotency-Key] header is the caller's
    key, unchanged, when the key is not empty, and is absent when the key is
    [None] or empty: the client never sends a generated key, and the outcome
    does not depend on the clock or on the random source.  The URL is the
    base, one slash, and the path without its leading slashes. *)
Theorem request_idempotency_key :
  forall config method path body key now_ms random_bytes,
    let o := Client._request J json_loads bool_of B X send
               config method path body key now_ms random_bytes in
    (forall k, key = Some k -> (128 < length k)%nat ->
       o = Raise (Client.Key_error Idempotency.Key_too_long))
    /\ ((forall k, key = Some k -> (length k <= 128)%nat) ->
        forall x,
          send method (request_url config path) (request_headers config key)
            body (Config.timeout config) = Raise x ->
          o = Raise (Client.Adapter_error x))
    /\ request_headers config key !! str "Idempotency-Key"
       = (if truthy_opt key then key else None)
    /\ (forall now_ms' random_bytes',
          o = Client._request J json_loads bool_of B X send
                config method path body key now_ms' random_bytes')
    /\ (exists n p,
          path = repeat 47%N n ++ p /\ head p <> Some 47%N
          /\ request_url config path = Config.api_base config ++ str "/" ++ p).
Proof.
  intros config method path body key now rnd o. subst o.
  split; [|split; [|split; [|split]]].
  - intros k -> Hlen. unfold Client._request. cbv zeta.
    destruct k as [|x k]; [cbn in Hlen; lia|].
    unfold Idempotency.make_idempotency_key.
    cbn [truthy_opt truthy default from_option id].
    destruct (Nat.ltb_spec 128 (length (x :: k))); [reflexivity|lia].
  - intros Hlen x Hx. rewrite request_sent by exact Hlen.
    unfold Client._request. cbv zeta. cbn [truthy_opt bind].
    now rewrite Hx.
  - unfold request_headers, Client._headers.
    destruct key as [[|x k]|]; cbn [truthy_opt truthy default from_option id];
      [reflexivity | | reflexivity].
    now rewrite lookup_insert_eq.
  - intros now' rnd'. unfold Client._request. cbv zeta.
    destruct key as [[|x k]|]; reflexivity.
  - destruct (lstrip_char_repeat 47%N path) as (n & Hn).
    exists n, (lstrip_char 47 path).
    split; [exact Hn|]. split; [apply lstrip_char_head | reflexivity].
Qed.

(** X16.  The response that [_request] gives back.  When the adapter
    answers, a status from 200 to 299 never raises: the result is the decoded
    JSON text, or the empty dictionary when the text is empty or is not
    JSON.  Any other status raises an [ApiError] that carries the status, the
    [X-Request-Id] header of the response and the message with the status in
    decimal; its payload is the decoded JSON value when that is truthy, the
    text itself under [body] when it is not JSON, and the empty dictionary
    otherwise. *)
Theorem request_response :
  forall config method path body key now_ms random_bytes status text rh,
    (forall k, key = Some k -> (length k <= 128)%nat) ->
    send method (request_url config path) (request_headers config key)
      body (Config.timeout config) = Return (status, text, rh) ->
    let o := Client._request J json_loads bool_of B X send
               config method path body key now_ms random_bytes in
    ((200 <= status < 300)%Z ->
     exists d, o = Return d
       /\ (forall j, d = Client.Loaded j
                     <-> text <> [] /\ json_loads text = Some j)
       /\ (forall s, d <> Client.Body_dict s))
    /\ (~ (200 <= status < 300)%Z ->
        exists e, o = Raise (Client.Api_error e)
          /\ Client.status_code e = status
          /\ Client.request_id e = rh !! str "X-Request-Id"
          /\ Client.message e = str "API returned " ++ format_int status
          /\ (forall j, Client.payload e = Client.Loaded j
                        <-> text <> [] /\ json_loads text = Some j
                            /\ bool_of j = true)
          /\ (forall s, Client.payload e = Client.Body_dict s
                        <-> s = text /\ text <> []
                            /\ json_loads text = None)).
Proof.
  intros config method path body key now rnd status text rh Hlen Hsend o.
  subst o. rewrite request_sent by exact Hlen.
  unfold Client._request. cbv zeta. cbn [truthy_opt bind].
  rewrite Hsend. cbn [reraise bind].
  split.
  - intros Hok.
    destruct (Z.leb_spec 200 status); [|lia].
    destruct (Z.ltb_spec status 300); [|lia]. cbn [andb negb].
    destruct text as [|c text]; cbn [truthy].
    + eexists. split; [reflexivity|]. split; [|discriminate].
      intros j. split; [discriminate | intros [? _]; congruence].
    + destruct (json_loads (c :: text)) as [j|] eqn:Hj;
        (eexists; split; [reflexivity|]; split; [|discriminate]);
        intros j'; split; intuition congruence.
  - intros Hbad.
    assert (Hb : negb ((200 <=? status) && (status <? 300))%Z = true).
    { destruct (Z.leb_spec 200 status), (Z.ltb_spec status 300);
        cbn; auto; lia. }
    rewrite Hb. eexists. split; [reflexivity|].
    cbn [Client.make_ApiError Client.status_code Client.request_id
         Client.message Client.payload].
    split; [reflexivity|]. split; [reflexivity|]. split; [reflexivity|].
    destruct text as [|c text]; cbn [truthy].
    + split; intros ?; split; intuition congruence.
    + destruct (json_loads (c :: text)) as [j'|] eqn:Hj;
        [destruct (bool_of j') eqn:Hbo|];
        split; intros ?; split; intuition congruence.
Qed.
End Request.


(** X15, witness: a key of 129 characters, and the key [order-12345] sent
    to an adapter that cannot connect. *)
Lemma request_idempotency_key_witness :
  Client._request pystr SampleClient.json_loads SampleClient.bool_of
    unit unit SampleClient.unreachable SampleClient.config
    (str "POST") (str "/v1/connect/payment_intents") None
    (Some (repeat 120%N 129)) 0 []
  = Raise (Client.Key_error Idempotency.Key_too_long) /\
  Client._request pystr SampleClient.json_loads SampleClient.bool_of
    unit unit SampleClient.unreachable SampleClient.config
    (str "POST") (str "/v1/connect/payment_intents") None
    (Some (str "order-12345")) 0 []
  = Raise (Client.Adapter_error tt).
Proof.
  split.
  - apply (proj1 (request_idempotency_key pystr SampleClient.json_loads
                    SampleClient.bool_of unit unit SampleClient.unreachable
                    SampleClient.config (str "POST")
                    (str "/v1/connect/payment_intents") None
                    (Some (repeat 120%N 129)) 0%Z [])
             (repeat 120%N 129) eq_refl).
    vm_compute. lia.
  - apply (proj1 (proj2 (request_idempotency_key pystr
                           SampleClient.json_loads SampleClient.bool_of
                           unit unit SampleClient.unreachable
                           SampleClient.config (str "POST")
                           (str "/v1/connect/payment_intents") None
                           (Some (str "order-12345")) 0%Z []))).
    + intros k [= <-]. vm_compute. lia.
    + reflexivity.
Defined.

(** X16, witness: the answer 404 with a text that is not JSON. *)
Lemma request_response_witness :
  exists e,
    Client._request pystr SampleClient.json_loads SampleClient.bool_of
      unit unit SampleClient.not_found SampleClient.config
      (str "GET") (str "/v1/connect/payment_intents/pi_1") None None 0 []
    = Raise (Client.Api_error e)
    /\ Client.status_code e = 404%Z
    /\ Client.request_id e = Some (str "req_1")
    /\ Client.payload e = Client.Body_dict (str "no such intent").
Proof.
  destruct (proj2 (request_response pystr SampleClient.json_loads
                     SampleClient.bool_of unit unit SampleClient.not_found
                     SampleClient.config (str "GET")
                     (str "/v1/connect/payment_intents/pi_1") None None
                     0%Z [] 404%Z (str "no such intent")
                     {[ str "X-Request-Id" := str "req_1" ]}
                     ltac:(discriminate) eq_refl) ltac:(lia))
    as (e & Ho & Hs & Hr & _ & _ & Hb).
  exists e. split; [exact Ho|]. split; [exact Hs|]. split.
  - rewrite Hr. vm_compute. reflexivity.
  - apply Hb. split; [reflexivity|]. split; [discriminate|].
    vm_compute. reflexivity.
Defined.

End ClientFacts.

(** * The store of processed events *)
Module DedupFacts.
Import Py PyMore Spec CallerSpec.

Lemma deliveries_cons event_id rest store :
  deliveries (event_id :: rest) store
  = (bool_decide (event_id ∈ store)
       :: (deliveries rest ({[ event_id ]} ∪ store)).1,
     (deliveries rest ({[ event_id ]} ∪ store)).2).
Proof.
  cbn [deliveries]. unfold ProcessedEvents.is_duplicate_event.
  case_bool_decide as Hin.
  - rewrite (subseteq_union_1_L {[ event_id ]} store)
      by now apply singleton_subseteq_l.
    now destruct (deliveries rest store).
  - now destruct (deliveries rest _).
Qed.

Lemma size_new_id (x : pystr) (s ids : gset pystr) :
  x ∉ s -> size (({[x]} ∪ ids) ∖ s) = S (size (ids ∖ ({[x]} ∪ s))).
Proof.
  intros Hin. rewrite difference_union_distr_l_L, size_union_alt.
  replace ({[x]} ∖ s) with ({[x]} : gset pystr).
  - rewrite size_singleton. f_equal. f_equal. apply set_eq. intros y.
    rewrite !elem_of_difference, elem_of_union, elem_of_singleton. tauto.
  - apply set_eq. intros y. rewrite elem_of_difference, elem_of_singleton.
    split; [intros ->; auto | tauto].
Qed.

(** X17.  Each event is processed once.  Over any sequence of deliveries,
    from any store, [is_duplicate_event] answers [True] to a delivery exactly
    when its id was in the store at the start or was delivered earlier in
    the sequence; the store ends as the old store with all the delivered ids
    added, nothing is ever removed; and the number of deliveries answered
    [False] is the number of distinct ids that were not in the store. *)
Theorem first_delivery_only :
  forall event_ids store,
    let answers := (deliveries event_ids store).1 in
    let store' := (deliveries event_ids store).2 in
    length answers = length event_ids
    /\ store' = store ∪ list_to_set event_ids
    /\ (forall i event_id,
          event_ids !! i = Some event_id ->
          answers !! i
          = Some (bool_decide (event_id ∈ store
                               \/ event_id ∈ take i event_ids)))
    /\ length (filter (fun duplicate => duplicate = false) answers)
       = size (list_to_set event_ids ∖ store : gset pystr).
Proof.
  intros event_ids. induction event_ids as [|event_id rest IH]; intros store.
  - cbn [deliveries fst snd length list_to_set].
    split; [reflexivity|]. split; [now rewrite right_id_L by apply _|].
    split; [intros i ? [=]|].
    now rewrite empty_difference_L, size_empty.
  - cbv zeta. rewrite deliveries_cons. cbn [fst snd].
    destruct (IH ({[ event_id ]} ∪ store)) as (Hlen & Hstore & Hans & Hcount).
    split; [cbn; now rewrite Hlen|].
    split.
    { rewrite Hstore, list_to_set_cons, (comm_L _ {[ event_id ]} store).
      now rewrite assoc_L by apply _. }
    split.
    + intros [|i] id Hi.
      * injection Hi as ->. cbn [take].
        change ((?x :: ?l) !! 0%nat) with (Some x). f_equal.
        apply bool_decide_ext. rewrite elem_of_nil. tauto.
      * change ((?x :: ?l) !! S i) with (l !! i) in Hi |- *.
        rewrite (Hans i id Hi). f_equal. apply bool_decide_ext.
        cbn [take].
        rewrite elem_of_union, elem_of_singleton, elem_of_cons. tauto.
    + case_bool_decide as Hin.
      * rewrite filter_cons_False by (intros ?; discriminate).
        rewrite Hcount, list_to_set_cons. f_equal. apply set_eq. intros x.
        rewrite !elem_of_difference, !elem_of_union, !elem_of_singleton.
        split.
        -- intros [Hx Hn]. split; [auto|]. intros Hs. apply Hn. now right.
        -- intros [[->|Hx] Hn]; [contradiction|]. split; [exact Hx|].
           intros [->|Hs]; contradiction.
      * rewrite filter_cons_True by reflexivity. cbn [length].
        now rewrite Hcount, list_to_set_cons, size_new_id.
Qed.

(** X17, witness: the event [evt_1] delivered again after [evt_2]. *)
Lemma first_delivery_only_witness :
  (deliveries [str "evt_1"; str "evt_2"; str "evt_1"]
     ProcessedEvents.processed_events).1 !! 2%nat
  = Some true.
Proof.
  rewrite (proj1 (proj2 (proj2 (first_delivery_only
             [str "evt_1"; str "evt_2"; str "evt_1"]
             ProcessedEvents.processed_events)))
             2%nat (str "evt_1") eq_refl).
  vm_compute. reflexivity.
Defined.

End DedupFacts.

(** * The order of the checks, and the header on the wire *)
Module OrderFacts.
Import Py PyMore Spec CallerSpec PyFacts ParseFacts VerifyFacts MoreFacts.

(** X18.  The header that [generate_signature] writes reads back.  For a
    UTF-8 payload, a secret that can be encoded and a key id without
    commas, [generate_signature] returns a header that
    [parse_signature_header] splits into exactly three fields: [t], the
    timestamp in decimal, which [int] reads back as the same number; [v1],
    lowercase hex digits, two for each byte of the digest; and [kid], the
    key id without its surrounding blanks.  With no timestamp given the clock
    is used.  A payload that is not UTF-8 makes [generate_signature] raise
    [UnicodeDecodeError]. *)
Theorem generated_header_parses :
  forall (hmac_sha256 : bytes -> bytes -> bytes) (todecimal : N -> option N)
         payload secret timestamp_ms kid now_ms,
    let ts := default now_ms timestamp_ms in
    let o := Webhook.generate_signature hmac_sha256 payload secret
               timestamp_ms kid now_ms in
    (forall body key,
       utf8_decode payload = Some body -> utf8_encode secret = Some key ->
       no_comma kid = true ->
       exists header sig,
         o = Return header
         /\ Webhook.parse_signature_header header
            = Return (<[str "kid" := strip kid]>
                        (<[str "v1" := sig]>
                           (<[str "t" := format_int ts]> empty)))
         /\ int todecimal (format_int ts) = Some ts
         /\ sig = hexlify (hmac_sha256 key
                             (map byte_of_N (format_int ts) ++ x2e :: payload))
         /\ forallb is_hex sig = true
         /\ length sig
            = (2 * length (hmac_sha256 key
                             (map byte_of_N (format_int ts)
                                ++ x2e :: payload)))%nat)
    /\ (utf8_decode payload = None -> o = Raise UnicodeDecodeError).
Proof.
  intros hmac_sha256 todecimal payload secret timestamp_ms kid now ts o.
  subst o. split.
  - intros body key Hb He Hc. eexists _, _.
    rewrite (generate_signature_returns _ _ _ _ _ timestamp_ms kid now Hb He).
    fold ts. split; [reflexivity|]. split.
    + apply wire_header_parse_105;
        auto using format_int_token, hexlify_token.
    + split; [apply int_format_int|]. split; [reflexivity|].
      split; [apply Claims.hexlify_hex | apply hexlify_length].
  - intros Hb. unfold Webhook.generate_signature. now rewrite Hb.
Qed.

(** X18, witness: the event of the test suites. *)
Lemma generated_header_parses_witness :
  exists header sig,
    Webhook.generate_signature Sample.hmac Sample.event_body
      (str "whsec_test_secret_123") (Some 1700000000000%Z) (str "v1") 0
    = Return header
    /\ Webhook.parse_signature_header header
       = Return (<[str "kid" := str "v1"]>
                   (<[str "v1" := sig]>
                      (<[str "t" := str "1700000000000"]> empty)))
    /\ length sig = 64%nat.
Proof.
  destruct (proj1 (generated_header_parses Sample.hmac Sample.digits
                     Sample.event_body (str "whsec_test_secret_123")
                     (Some 1700000000000%Z) (str "v1") 0%Z)
              (map (fun x => Byte.to_N x) Sample.event_body)
              (Hashlib.b "whsec_test_secret_123"))
    as (header & sig & Hg & Hp & _ & Hs & _ & Hl);
    [vm_compute; reflexivity | vm_compute; reflexivity
     | vm_compute; reflexivity |].
  exists header, sig. split; [exact Hg|]. split; [exact Hp|].
  rewrite Hl. vm_compute. reflexivity.
Defined.



End OrderFacts.
